(** * url_analyzer.py: the content-fetch-and-normalize pipeline

    A shallow embedding of [URLAnalyzer] (src/url_analyzer.py):
    [fetch_content], [fetch_arxiv], [create_analysis_prompt] and [analyze],
    together with the Python string and dict operations they use. *)

From Stdlib Require Import NArith Ascii String List Lia.
From stdpp Require Import base option list strings gmap.

Local Open Scope string_scope.
Local Open Scope list_scope.
Local Open Scope N_scope.

(** ** Python [str]

    A Python [str] is a sequence of Unicode code points; one element of a
    [str] below is one character as [len], slicing and [in] see it. *)

Definition char : Type := N.
Abbreviation str := (list char).

(** The source file is UTF-8; a literal of the source is the decoding of its
    bytes.  [utf8_decode] reads one to four bytes per code point. *)
Fixpoint utf8_decode (bs : list N) : str :=
  match bs with
  | [] => []
  | b0 :: r0 =>
    if b0 <? 128 then b0 :: utf8_decode r0
    else if b0 <? 224 then
      match r0 with
      | b1 :: r1 =>
        N.lor (N.shiftl (N.land b0 31) 6) (N.land b1 63) :: utf8_decode r1
      | _ => []
      end
    else if b0 <? 240 then
      match r0 with
      | b1 :: b2 :: r2 =>
        N.lor (N.shiftl (N.land b0 15) 12)
          (N.lor (N.shiftl (N.land b1 63) 6) (N.land b2 63)) :: utf8_decode r2
      | _ => []
      end
    else
      match r0 with
      | b1 :: b2 :: b3 :: r3 =>
        N.lor (N.shiftl (N.land b0 7) 18)
          (N.lor (N.shiftl (N.land b1 63) 12)
             (N.lor (N.shiftl (N.land b2 63) 6) (N.land b3 63)))
          :: utf8_decode r3
      | _ => []
      end
  end.

(** A string literal of the source. *)
Definition lit (s : string) : str :=
  utf8_decode (map N_of_ascii (list_ascii_of_string s)).

Arguments lit : simpl never.

(** The line feed, written [\n] in the source. *)
Definition LF : char := 10.

(** [s.startswith(p)] *)
Fixpoint startswith (p s : str) : bool :=
  match p, s with
  | [], _ => true
  | _ :: _, [] => false
  | a :: p', b :: s' => (a =? b) && startswith p' s'
  end.

(** [needle in hay]: the case-sensitive substring test. *)
Fixpoint contains (needle hay : str) : bool :=
  startswith needle hay ||
  match hay with
  | [] => false
  | _ :: hay' => contains needle hay'
  end.

(** [s.split(sep)] for a non-empty [sep] (every call site passes a non-empty
    literal; Python raises ValueError on an empty one).  The scan goes left
    to right; [piece] is the current piece, reversed, and [skip] counts the
    characters of a matched separator still to be passed over. *)
Fixpoint split_from (sep : str) (skip : nat) (piece : str) (s : str)
  : list str :=
  match s with
  | [] => [rev piece]
  | c :: s' =>
    match skip with
    | S k => split_from sep k piece s'
    | O =>
      if startswith sep s
      then rev piece :: split_from sep (Nat.pred (length sep)) [] s'
      else split_from sep O (c :: piece) s'
    end
  end.

Definition split (sep s : str) : list str := split_from sep O [] s.

(** [sep.join(parts)] *)
Fixpoint join (sep : str) (parts : list str) : str :=
  match parts with
  | [] => []
  | [p] => p
  | p :: rest => p ++ sep ++ join sep rest
  end.

(** [s.replace(old, new)] for a non-empty [old]: the pieces between the
    occurrences of [old], joined by [new]. *)
Definition replace (old new s : str) : str := join new (split old s).

(** [l[0]] and [l[-1]] on the result of [split], which is never empty. *)
Definition first_piece (l : list str) : str := List.hd [] l.
Definition last_piece (l : list str) : str := List.last l [].

(** ** [fetch_arxiv]: the paper identifier (lines 70-76) *)
Definition paper_id (url : str) : str :=
  if contains (lit "abs/") url then
    first_piece (split (lit "v") (last_piece (split (lit "abs/") url)))
  else if contains (lit "pdf/") url then
    first_piece
      (split (lit "v")
         (replace (lit ".pdf") (lit "") (last_piece (split (lit "pdf/") url))))
  else
    first_piece (split (lit "v") (last_piece (split (lit "/") url))).

(** [s[:n]] for a non-negative [n]. *)
Definition slice_to (n : N) {A : Type} (s : list A) : list A :=
  take (N.to_nat n) s.

(** ** Python values, dicts and exceptions *)

(** The values the content dict holds: [None], a [bool], a [str], or a list
    of [str]. *)
Inductive value : Type :=
| VNone
| VBool (b : bool)
| VStr (s : str)
| VList (l : list str).

Abbreviation dict := (gmap string value).

(** A dict display [{k1: v1, k2: v2, ...}]: items are stored in source
    order, a later item replacing an earlier one with the same key. *)
Definition dict_of (items : list (string * value)) : dict :=
  foldl (λ d kv, <[kv.1 := kv.2]> d) ∅ items.

(** Truth value of an object, as [and], [not] and [if] test it. *)
Definition truthy (v : value) : bool :=
  match v with
  | VNone => false
  | VBool b => b
  | VStr s => match s with [] => false | _ => true end
  | VList l => match l with [] => false | _ => true end
  end.

(** Truth value of the optional argument [pasted_content]. *)
Definition truthy_opt (o : option str) : bool :=
  match o with
  | None => false
  | Some s => truthy (VStr s)
  end.

(** [v == s] for a [str] literal [s]. *)
Definition eq_str (v : value) (s : str) : bool :=
  match v with
  | VStr s' => bool_decide (s' = s)
  | _ => false
  end.

(** An exception instance: its class and [str(e)]. Every exception of the
    model is an instance of [Exception], which [except Exception] catches. *)
Inductive exception : Type :=
| Exception (class : string) (message : str).

Definition exc_str (e : exception) : str :=
  match e with Exception _ m => m end.

Definition KeyError (key : string) : exception :=
  Exception "KeyError" (lit (String.append "'" (String.append key "'"))).

Definition TypeError (message : string) : exception :=
  Exception "TypeError" (lit message).

Definition IndexError : exception :=
  Exception "IndexError" (lit "list index out of range").

(** ** The external collaborators *)

Module requests.
(** A response, by the two things the code asks of it. *)
Record Response : Type := {
  raise_for_status : exception + unit;
  text : str
}.
End requests.

Module arxiv.
Record Author : Type := { name : str }.
Record Result : Type := {
  title : str;
  authors : list Author;
  summary : str
}.
End arxiv.

Module anthropic.
Record TextBlock : Type := { text : str }.
Record Message : Type := { content : list TextBlock }.
End anthropic.

(** What the program does to the outside, in order. *)
Inductive event : Type :=
| Print (line : str)
| RequestsGet (url : str) (headers : list (str * str)) (timeout : N)
| ArxivResults (id_list : list str)
| MessagesCreate (model : str) (max_tokens : N)
    (messages : list (str * str)) (betas : list str).

Definition is_http_call (ev : event) : bool :=
  match ev with RequestsGet _ _ _ => true | _ => false end.

Definition is_lookup_call (ev : event) : bool :=
  match ev with ArxivResults _ => true | _ => false end.

Definition is_completion_call (ev : event) : bool :=
  match ev with MessagesCreate _ _ _ _ => true | _ => false end.

(** ** Effects: an exception or a result, and the trace of events *)

Definition IO (A : Type) : Type := (exception + A) * list event.

#[global] Instance IO_ret : MRet IO := λ A a, (inr a, []).

#[global] Instance IO_bind : MBind IO := λ A B f m,
  match m with
  | (inl e, t) => (inl e, t)
  | (inr a, t) => let '(r, t') := f a in (r, t ++ t')
  end.

Definition raise {A : Type} (e : exception) : IO A := (inl e, []).

Definition print (line : str) : IO unit := (inr tt, [Print line]).

(** A step that raises or returns and does nothing to the outside. *)
Definition outcome {A : Type} (r : exception + A) : IO A := (r, []).

(** A call to a collaborator: the event and what the collaborator answers. *)
Definition call {A : Type} (ev : event) (answer : exception + A) : IO A :=
  (answer, [ev]).

(** [try: body / except Exception as e: handler e] *)
Definition try_except {A : Type} (body : IO A) (handler : exception → IO A)
  : IO A :=
  match body with
  | (inl e, t) => let '(r, t') := handler e in (r, t ++ t')
  | (inr a, t) => (inr a, t)
  end.

Definition result {A : Type} (m : IO A) : exception + A := m.1.
Definition trace {A : Type} (m : IO A) : list event := m.2.

(** Code that works on the dict [content_data] refers to: the dict is
    threaded through, so that a store into it is visible afterwards. *)
Definition Obj (A : Type) : Type := dict → IO (A * dict).

#[global] Instance Obj_ret : MRet Obj := λ A a d, mret (a, d).

#[global] Instance Obj_bind : MBind Obj := λ A B f m d,
  m d ≫= λ ad, f ad.1 ad.2.

Definition lift {A : Type} (m : IO A) : Obj A := λ d, m ≫= λ a, mret (a, d).

Definition lift_exn {A : Type} (r : exception + A) : Obj A :=
  λ d, match r with inl e => raise e | inr a => mret (a, d) end.

(** [content_data[key]] *)
Definition getitem (key : string) : Obj value := λ d,
  match d !! key with
  | Some v => mret (v, d)
  | None => raise (KeyError key)
  end.

(** [content_data.get(key, dflt)]: the default is used only when the key
    is missing, not when it is present with value [None]. *)
Definition get (key : string) (dflt : value) : Obj value := λ d,
  mret (default dflt (d !! key), d).

(** [content_data[key] = v] *)
Definition setitem (key : string) (v : value) : Obj unit := λ d,
  mret (tt, <[key := v]> d).

(** ** Formatting and subscripting of values *)

(** [', '.join(v)]: a list of [str] is joined; a [str] is iterated
    character by character; [None] and [bool] are not iterable. *)
Definition str_join (sep : str) (v : value) : exception + str :=
  match v with
  | VList l => inr (join sep l)
  | VStr s => inr (join sep (map (λ c, [c]) s))
  | _ => inl (TypeError "can only join an iterable")
  end.

(** [v[:n]] *)
Definition value_slice_to (n : N) (v : value) : exception + value :=
  match v with
  | VStr s => inr (VStr (slice_to n s))
  | VList l => inr (VList (slice_to n l))
  | VNone => inl (TypeError "'NoneType' object is not subscriptable")
  | VBool _ => inl (TypeError "'bool' object is not subscriptable")
  end.

(** The value stored for the argument [pasted_content]. *)
Definition value_of_opt (o : option str) : value :=
  match o with
  | None => VNone
  | Some s => VStr s
  end.

(** ** The prompt template (lines 102-147) *)
Definition base_prompt : str := lit "You are an expert at quickly understanding and explaining technical content.
Your task is to decompress this content into a clear, actionable summary.

Provide your analysis in this EXACT format:

## 📝 ONE-LINER
[What is this in one clear sentence?]

## 🚀 KEY INNOVATION
[What's new or important here? 1-2 sentences]

## 💡 WHY IT MATTERS
[Why should someone care? Impact and relevance. 2-3 sentences]

## 🔍 MAIN INSIGHTS
• [Key point 1]
• [Key point 2]
• [Key point 3]
• [Add more if needed, up to 5 total]

## ⚙️ HOW IT WORKS
[Brief explanation of the methodology or approach. 2-3 sentences. Skip if not applicable]

## 📊 KEY RESULTS
[What did they achieve? Include specific metrics if mentioned. 2-3 sentences]

## ⚠️ LIMITATIONS
[What are the caveats, limitations, or things to watch out for? 1-2 sentences]

## 🔗 CONNECTIONS
[How does this relate to other work or trends? 1-2 sentences]

## 🎯 WHO SHOULD READ THIS
[Specific audience who would benefit most. 1 sentence]

## 📌 TLDR
[2-3 sentence summary for someone with 30 seconds]

## 🤔 SHOULD YOU READ THE FULL VERSION?
[Yes/No and specific reason why. 1 sentence]

---

Now analyze this content:

".

(** The message [analyze] returns when the content must be pasted. *)
Definition paste_request : str :=
  lit "⚠️  This URL requires manual content paste. Please provide the content.".

Section URLAnalyzer.

(** [repr] of a list of [str], the Python built-in an f-string applies to a
    list. *)
Variable repr_list : list str → str.

(** [requests.get(url, headers=headers, timeout=timeout)] *)
Variable requests_get :
  str → list (str * str) → N → exception + requests.Response.

(** [next(arxiv.Client().results(arxiv.Search(id_list=id_list)))] *)
Variable arxiv_results : list str → exception + arxiv.Result.

(** [self.client.beta.messages.create(model=..., max_tokens=...,
    messages=..., betas=...)], a message being its role and content. *)
Variable messages_create :
  str → N → list (str * str) → list str → exception + anthropic.Message.

(** A replacement field [{v}] of an f-string. *)
Definition format_value (v : value) : str :=
  match v with
  | VNone => lit "None"
  | VBool true => lit "True"
  | VBool false => lit "False"
  | VStr s => s
  | VList l => repr_list l
  end.

(** ** [fetch_arxiv] (lines 68-97) *)
Definition fetch_arxiv (url : str) : IO dict :=
  let paper_id := paper_id url in
  try_except
    (paper ← call (ArxivResults [paper_id]) (arxiv_results [paper_id]);
     mret (dict_of [
       ("url", VStr url);
       ("type", VStr (lit "arxiv"));
       ("title", VStr (arxiv.title paper));
       ("authors", VList (map arxiv.name (arxiv.authors paper)));
       ("abstract", VStr (arxiv.summary paper));
       ("needs_paste", VBool false)]))
    (λ e,
     print (lit "Error fetching ArXiv paper: " ++ exc_str e);;
     mret (dict_of [
       ("url", VStr url);
       ("type", VStr (lit "arxiv"));
       ("content", VNone);
       ("needs_paste", VBool true)])).

(** ** [fetch_content] (lines 26-66) *)

(** The [headers] of line 47. *)
Definition headers : list (str * str) :=
  [(lit "User-Agent", lit "Mozilla/5.0 (compatible; ContentAnalyzer/1.0)")].

Definition fetch_content (url : str) : IO dict :=
  if contains (lit "arxiv.org") url then
    fetch_arxiv url
  else if contains (lit "twitter.com") url || contains (lit "x.com") url then
    mret (dict_of [
      ("url", VStr url);
      ("type", VStr (lit "tweet"));
      ("content", VNone);
      ("needs_paste", VBool true)])
  else
    try_except
      (response ← call (RequestsGet url headers 10)
                       (requests_get url headers 10);
       status_ok ← outcome (requests.raise_for_status response);
       mret (dict_of [
         ("url", VStr url);
         ("type", VStr (lit "article"));
         ("content", VStr (slice_to 50000 (requests.text response)));
         ("needs_paste", VBool false)]))
      (λ e,
       print (lit "Could not fetch URL directly: " ++ exc_str e);;
       mret (dict_of [
         ("url", VStr url);
         ("type", VStr (lit "unknown"));
         ("content", VNone);
         ("needs_paste", VBool true)])).

(** ** [create_analysis_prompt] (lines 99-172) *)

(** The content block (lines 150-170). *)
Definition content_str : Obj str :=
  type ← getitem "type";
  if eq_str type (lit "arxiv") then
    title ← get "title" (VStr (lit "Unknown"));
    authors ← get "authors" (VList []);
    joined ← lift_exn (str_join (lit ", ") authors);
    url ← getitem "url";
    abstract ← get "abstract" (VStr (lit "Not available"));
    mret (lit "
PAPER: " ++ format_value title ++ lit "
AUTHORS: " ++ joined ++ lit "
URL: " ++ format_value url ++ lit "

ABSTRACT:
" ++ format_value abstract ++ lit "
")
  else
    type ← getitem "type";
    if eq_str type (lit "tweet") then
      url ← getitem "url";
      content ← get "content" (VStr (lit "Content not provided"));
      mret (lit "
TWEET/THREAD from " ++ format_value url ++ lit ":
" ++ format_value content ++ lit "
")
    else
      url ← getitem "url";
      content ← get "content" (VStr (lit "Content not provided"));
      sliced ← lift_exn (value_slice_to 10000 content);
      mret (lit "
URL: " ++ format_value url ++ lit "
CONTENT:
" ++ format_value sliced ++ lit "  # Limit for token management
").

Definition create_analysis_prompt : Obj str :=
  content_str ← content_str;
  mret (base_prompt ++ content_str).

(** ** [analyze] (lines 174-205) *)

(** Lines 187-205: format the prompt and ask for the completion. *)
Definition complete : Obj str :=
  prompt ← create_analysis_prompt;
  lift (print (lit "🤖 Analyzing with Claude..."));;
  lift (try_except
    (let model := lit "claude-3-5-sonnet-20241022" in
     let messages := [(lit "user", prompt)] in
     let betas := [lit "prompt-caching-2024-07-31"] in
     response ← call (MessagesCreate model 2000 messages betas)
                     (messages_create model 2000 messages betas);
     match anthropic.content response with
     | [] => raise IndexError
     | block :: _ => mret (anthropic.text block)
     end)
    (λ e, mret (lit "❌ Error calling Claude API: " ++ exc_str e))).

(** Lines 181-205, on the dict [fetch_content] returned. *)
Definition analyze_record (pasted_content : option str) : Obj str :=
  needs_paste ← getitem "needs_paste";
  if truthy needs_paste && truthy_opt pasted_content then
    setitem "content" (value_of_opt pasted_content);;
    complete
  else
    needs_paste ← getitem "needs_paste";
    if truthy needs_paste && negb (truthy_opt pasted_content) then
      mret paste_request
    else
      complete.

(** [analyze], returning also the dict [content_data] refers to when it
    returns. *)
Definition analyze_run (url : str) (pasted_content : option str)
  : IO (str * dict) :=
  print (lit "📥 Fetching content from: " ++ url);;
  content_data ← fetch_content url;
  analyze_record pasted_content content_data.

Definition analyze (url : str) (pasted_content : option str) : IO str :=
  r ← analyze_run url pasted_content;
  mret r.1.

End URLAnalyzer.

(** ** Vocabulary of the specification *)

(** The categories of a content record and the [type] tag that stands for
    each in the dict. *)
Inductive category : Type :=
| academic_paper
| social_post
| generic_document
| unresolved.

Definition category_of_tag (tag : str) : option category :=
  if bool_decide (tag = lit "arxiv") then Some academic_paper
  else if bool_decide (tag = lit "tweet") then Some social_post
  else if bool_decide (tag = lit "article") then Some generic_document
  else if bool_decide (tag = lit "unknown") then Some unresolved
  else None.

(** The [str] stored under a key, if there is one. *)
Definition str_at (key : string) (d : dict) : option str :=
  match d !! key with
  | Some (VStr s) => Some s
  | _ => None
  end.

Definition category_of (d : dict) : option category :=
  str_at "type" d ≫= category_of_tag.

(** The body text of a record: the abstract of an academic-paper record,
    the content of any other record. *)
Definition body_text (d : dict) : option str :=
  match category_of d with
  | Some academic_paper => str_at "abstract" d
  | _ => str_at "content" d
  end.

(** The record holds some text, under either key. *)
Definition holds_text (d : dict) : Prop :=
  is_Some (str_at "content" d) ∨ is_Some (str_at "abstract" d).

Definition requires_manual_input (d : dict) : Prop :=
  d !! "needs_paste" = Some (VBool true).

(** [needle] occurs in [s] as a contiguous run of characters. *)
Definition occurs_in (needle s : str) : Prop :=
  ∃ before after, s = before ++ needle ++ after.

(** The lines of a text that open a section of the requested analysis. *)
Definition section_headers (s : str) : list str :=
  filter (λ line, startswith (lit "## ") line = true) (split [LF] s).

(** The record of a URL whose content has to be pasted (lines 37-42,
    61-66 and 92-97, which differ in the [type] tag only). *)
Definition manual_record (url tag : str) : dict :=
  dict_of [
    ("url", VStr url);
    ("type", VStr tag);
    ("content", VNone);
    ("needs_paste", VBool true)].

(** The record of a fetched document (lines 53-58). *)
Definition article_record (url body : str) : dict :=
  dict_of [
    ("url", VStr url);
    ("type", VStr (lit "article"));
    ("content", VStr (slice_to 50000 body));
    ("needs_paste", VBool false)].

(** The record of a paper that was found (lines 82-89). *)
Definition paper_record (url : str) (paper : arxiv.Result) : dict :=
  dict_of [
    ("url", VStr url);
    ("type", VStr (lit "arxiv"));
    ("title", VStr (arxiv.title paper));
    ("authors", VList (map arxiv.name (arxiv.authors paper)));
    ("abstract", VStr (arxiv.summary paper));
    ("needs_paste", VBool false)].

(** The outcome of the guarded fetch of lines 50-51: the exception raised
    by [requests.get] or by [raise_for_status], or else the response
    text. *)
Definition http_outcome
  (requests_get : str → list (str * str) → N → exception + requests.Response)
  (url : str) : exception + str :=
  match requests_get url headers 10 with
  | inl e => inl e
  | inr response =>
    match requests.raise_for_status response with
    | inl e => inl e
    | inr _ => inr (requests.text response)
    end
  end.

(** A computation on the dict that only reads it: it returns with the dict
    as it was, or raises, and does nothing to the outside. *)
Definition reads_only {A : Type} (m : Obj A) : Prop :=
  ∀ d, (∃ a, m d = (inr (a, d), [])) ∨ (∃ e, m d = (inl e, [])).

(** The dict can be formatted: [create_analysis_prompt] returns a prompt. *)
Definition formattable (repr_list : list str → str) (d : dict) : Prop :=
  ∃ prompt, create_analysis_prompt repr_list d = (inr (prompt, d), []).

(** [create_analysis_prompt] called twice in a row on the same dict. *)
Definition format_twice (repr_list : list str → str) : Obj (str * str) :=
  first ← create_analysis_prompt repr_list;
  second ← create_analysis_prompt repr_list;
  mret (first, second).

(** The ways [fetch_content] can return on a URL: what it returns and what
    it did to the outside, by the branch taken and what the collaborator
    answered. *)
Section Resolution.

Variable requests_get :
  str → list (str * str) → N → exception + requests.Response.
Variable arxiv_results : list str → exception + arxiv.Result.

Inductive resolution (url : str) : IO dict → Prop :=
| paper_found paper :
    contains (lit "arxiv.org") url = true →
    arxiv_results [paper_id url] = inr paper →
    resolution url
      (inr (paper_record url paper), [ArxivResults [paper_id url]])
| paper_not_found e :
    contains (lit "arxiv.org") url = true →
    arxiv_results [paper_id url] = inl e →
    resolution url
      (inr (manual_record url (lit "arxiv")),
       [ArxivResults [paper_id url];
        Print (lit "Error fetching ArXiv paper: " ++ exc_str e)])
| social_url :
    contains (lit "arxiv.org") url = false →
    contains (lit "twitter.com") url || contains (lit "x.com") url = true →
    resolution url (inr (manual_record url (lit "tweet")), [])
| document_fetched body :
    contains (lit "arxiv.org") url = false →
    contains (lit "twitter.com") url || contains (lit "x.com") url = false →
    http_outcome requests_get url = inr body →
    resolution url
      (inr (article_record url body), [RequestsGet url headers 10])
| document_not_fetched e :
    contains (lit "arxiv.org") url = false →
    contains (lit "twitter.com") url || contains (lit "x.com") url = false →
    http_outcome requests_get url = inl e →
    resolution url
      (inr (manual_record url (lit "unknown")),
       [RequestsGet url headers 10;
        Print (lit "Could not fetch URL directly: " ++ exc_str e)]).

End Resolution.

(** The text before the first occurrence of a character. *)
Fixpoint text_before (c : char) (s : str) : str :=
  match s with
  | [] => []
  | a :: s' => if c =? a then [] else a :: text_before c s'
  end.

(** *** The identifier as the specification words it *)

Definition is_digit (c : char) : bool := (48 <=? c) && (c <=? 57).

(** Remove a trailing [suffix], if the text ends with it. *)
Definition strip_suffix (suffix s : str) : str :=
  if startswith (rev suffix) (rev s)
  then rev (drop (length suffix) (rev s))
  else s.

(** The digits a text starts with. *)
Fixpoint take_digits (s : str) : str :=
  match s with
  | c :: s' => if is_digit c then c :: take_digits s' else []
  | [] => []
  end.

(** Remove a trailing version suffix: a [v] followed by one or more
    digits, at the end of the text. *)
Definition strip_version (s : str) : str :=
  let r := rev s in
  let digits := length (take_digits r) in
  match digits, drop digits r with
  | S _, c :: rest => if c =? 118 then rev rest else s
  | _, _ => s
  end.

Definition spec_paper_id (url : str) : str :=
  if contains (lit "abs/") url then
    strip_version (last_piece (split (lit "abs/") url))
  else if contains (lit "pdf/") url then
    strip_version
      (strip_suffix (lit ".pdf") (last_piece (split (lit "pdf/") url)))
  else
    strip_version (last_piece (split (lit "/") url)).

(** ** Collaborators for the worked examples *)

Definition repr_unused (l : list str) : str := [].

Definition unreachable : exception :=
  Exception "ConnectionError" (lit "Max retries exceeded").

Definition requests_down (url : str) (h : list (str * str)) (timeout : N)
  : exception + requests.Response := inl unreachable.

Definition page (body : str) : requests.Response :=
  {| requests.raise_for_status := inr tt; requests.text := body |}.

Definition requests_serving (body : str) (url : str) (h : list (str * str))
  (timeout : N) : exception + requests.Response := inr (page body).

Definition arxiv_down (id_list : list str) : exception + arxiv.Result :=
  inl (Exception "StopIteration" (lit "")).

Definition example_paper (abstract : str) : arxiv.Result :=
  {| arxiv.title := lit "Example Paper";
     arxiv.authors := [ {| arxiv.name := lit "A. One" |};
                        {| arxiv.name := lit "B. Two" |} ];
     arxiv.summary := abstract |}.

Definition arxiv_serving (paper : arxiv.Result) (id_list : list str)
  : exception + arxiv.Result := inr paper.

(** A page of 60000 characters. *)
Definition long_page : str := List.repeat 97 (N.to_nat 60000).

Definition claude_down (model : str) (max_tokens : N)
  (messages : list (str * str)) (betas : list str)
  : exception + anthropic.Message :=
  inl (Exception "APIConnectionError" (lit "Connection error."))%string.

(** ** Vocabulary for the traces and the prompts *)

(** The events that are calls to a collaborator, in order. *)
Definition is_call (ev : event) : bool :=
  match ev with Print _ => false | _ => true end.

Definition calls (t : list event) : list event := List.filter is_call t.

(** The lines printed, in order. *)
Definition printed (t : list event) : list str :=
  omap (λ ev, match ev with Print line => Some line | _ => None end) t.

(** The line [analyze] prints first (line 178). *)
Definition fetching_line (url : str) : str :=
  lit "📥 Fetching content from: " ++ url.

(** The request for a completion of lines 193-200. *)
Definition completion_request (prompt : str) : event :=
  MessagesCreate (lit "claude-3-5-sonnet-20241022") 2000
    [(lit "user", prompt)] [lit "prompt-caching-2024-07-31"].

(** The prompt of a dict, or the exception formatting it raises. *)
Definition prompt_of (repr_list : list str → str) (d : dict)
  : exception + str :=
  match result (create_analysis_prompt repr_list d) with
  | inl e => inl e
  | inr (prompt, _) => inr prompt
  end.

(** A value that can be iterated by [join] and subscripted by a slice. *)
Definition is_sequence (v : value) : bool :=
  match v with
  | VStr _ | VList _ => true
  | VNone | VBool _ => false
  end.

(** ** [main]: the text to paste and the call of [analyze] (lines 240-253) *)

Definition EOFError : exception :=
  Exception "EOFError" (lit "EOF when reading a line").

(** The loop of lines 244-249: [input()] takes the next line of the
    standard input, without its line end, and raises EOFError when there is
    none; the loop ends at the first empty line.  Returns the lines read
    and the input that is left. *)
Fixpoint read_lines (stdin : list str) (lines : list str)
  : exception + (list str * list str) :=
  match stdin with
  | [] => inl EOFError
  | line :: stdin' =>
    if truthy (VStr line) then read_lines stdin' (lines ++ [line])
    else inr (lines, stdin')
  end.

Section Main.

Variable repr_list : list str → str.
Variable requests_get :
  str → list (str * str) → N → exception + requests.Response.
Variable arxiv_results : list str → exception + arxiv.Result.
Variable messages_create :
  str → N → list (str * str) → list str → exception + anthropic.Message.

(** Lines 240-253 of [main], for the URL read at line 231: returns the
    result of [analyze] and the standard input that is left. *)
Definition main_analyze (url : str) (stdin : list str)
  : IO (str * list str) :=
  if contains (lit "twitter.com") url || contains (lit "x.com") url then
    print (lit "
📋 Please paste the tweet content (press Enter twice when done):");;
    read ← outcome (read_lines stdin []);
    let pasted_content := join [LF] read.1 in
    answer ← analyze repr_list requests_get arxiv_results messages_create
               url (Some pasted_content);
    mret (answer, read.2)
  else
    answer ← analyze repr_list requests_get arxiv_results messages_create
               url None;
    mret (answer, stdin).

End Main.

(** What lines 202 and 205 make of the answer of the completion service:
    the text of the first block, or the error line. *)
Definition completion_text (answer : exception + anthropic.Message) : str :=
  match answer with
  | inl e => lit "❌ Error calling Claude API: " ++ exc_str e
  | inr response =>
    match anthropic.content response with
    | [] => lit "❌ Error calling Claude API: " ++ exc_str IndexError
    | block :: _ => anthropic.text block
    end
  end.

(** The characters of a new-style arXiv identifier: digits and the dot. *)
Definition is_id_char (c : char) : bool := is_digit c || (c =? 46).

(** A record for the worked examples: a document with its text. *)
Definition example_document : dict :=
  dict_of [
    ("url", VStr (lit "https://example.com/post"));
    ("type", VStr (lit "article"));
    ("content", VStr (lit "Some text."));
    ("needs_paste", VBool false)].

(** A completion service that answers with one block. *)
Definition claude_says (text : str) (model : str) (max_tokens : N)
  (messages : list (str * str)) (betas : list str)
  : exception + anthropic.Message :=
  inr {| anthropic.content := [ {| anthropic.text := text |} ] |}.

(** * Properties *)

(** ** Strings *)

Lemma startswith_app (p s : str) :
  startswith p s = true ↔ ∃ rest, s = p ++ rest.
Proof.
  revert s; induction p as [|a p IH]; intros [|b s]; simpl.
  - split; eauto.
  - split; eauto.
  - split; [discriminate | intros [r H]; discriminate].
  - rewrite andb_true_iff, N.eqb_eq, IH. split.
    + intros [-> [r ->]]. eauto.
    + intros [r H]. injection H as -> ->. eauto.
Qed.

(** The test [needle in hay] holds exactly when [needle] occurs in [hay]. *)
Lemma contains_occurs (needle hay : str) :
  contains needle hay = true ↔ occurs_in needle hay.
Proof.
  induction hay as [|c hay IH].
  - simpl. rewrite orb_false_r, startswith_app. split.
    + intros [r H]. exists [], r. exact H.
    + intros [[|b before] [after H]]; simpl in H; [eauto | discriminate].
  - cbn [contains]. rewrite orb_true_iff, startswith_app, IH. split.
    + intros [[r H] | (before & after & H)].
      * exists [], r. exact H.
      * exists (c :: before), after. simpl. by rewrite H.
    + intros ([|b before] & after & H); simpl in H.
      * left. eauto.
      * right. injection H as -> ->. exists before, after. reflexivity.
Qed.

Lemma split_from_nonempty sep skip piece s : split_from sep skip piece s ≠ [].
Proof.
  revert skip piece; induction s as [|c s IH]; intros skip piece; simpl.
  - discriminate.
  - destruct skip; [|apply IH]. destruct (startswith sep (c :: s)).
    + discriminate.
    + apply IH.
Qed.

(** [split] never returns an empty list, so [[0]] and [[-1]] are defined. *)
Lemma split_nonempty sep s : split sep s ≠ [].
Proof. apply split_from_nonempty. Qed.

Section Properties.

Variable repr_list : list str → str.
Variable requests_get :
  str → list (str * str) → N → exception + requests.Response.
Variable arxiv_results : list str → exception + arxiv.Result.
Variable messages_create :
  str → N → list (str * str) → list str → exception + anthropic.Message.


(** ** The five ways [fetch_content] returns *)

Lemma fetch_content_resolution url :
  resolution requests_get arxiv_results url (fetch_content requests_get arxiv_results url).
Proof.
  unfold fetch_content, fetch_arxiv.
  destruct (contains (lit "arxiv.org") url) eqn:Harxiv.
  - unfold try_except, call, mbind, IO_bind.
    destruct (arxiv_results [paper_id url]) as [e|paper] eqn:Hlookup.
    + by apply paper_not_found.
    + by apply paper_found.
  - destruct (contains (lit "twitter.com") url || contains (lit "x.com") url)
      eqn:Hsocial.
    + by apply social_url.
    + unfold try_except, call, outcome, mbind, IO_bind.
      destruct (requests_get url headers 10) as [e|response] eqn:Hget.
      * apply document_not_fetched; try done.
        unfold http_outcome. by rewrite Hget.
      * destruct (requests.raise_for_status response) as [e|[]] eqn:Hstatus.
        -- apply document_not_fetched; try done.
           unfold http_outcome. by rewrite Hget, Hstatus.
        -- apply document_fetched; try done.
           unfold http_outcome. by rewrite Hget, Hstatus.
Qed.

(** Case analysis on the way [fetch_content url] returned. *)
Ltac resolution_cases url :=
  generalize (fetch_content_resolution url);
  generalize (fetch_content requests_get arxiv_results url);
  let r := fresh "r" in let R := fresh "R" in
  intros r R; destruct R.

Lemma fetch_content_social url :
  contains (lit "arxiv.org") url = false →
  contains (lit "twitter.com") url || contains (lit "x.com") url = true →
  fetch_content requests_get arxiv_results url =
    (inr (manual_record url (lit "tweet")), []).
Proof. intros. resolution_cases url; congruence. Qed.

Lemma fetch_content_paper_found url paper :
  contains (lit "arxiv.org") url = true →
  arxiv_results [paper_id url] = inr paper →
  fetch_content requests_get arxiv_results url =
    (inr (paper_record url paper), [ArxivResults [paper_id url]]).
Proof. intros. resolution_cases url; congruence. Qed.

Lemma fetch_content_paper_not_found url e :
  contains (lit "arxiv.org") url = true →
  arxiv_results [paper_id url] = inl e →
  fetch_content requests_get arxiv_results url =
    (inr (manual_record url (lit "arxiv")),
     [ArxivResults [paper_id url];
      Print (lit "Error fetching ArXiv paper: " ++ exc_str e)]).
Proof. intros. resolution_cases url; congruence. Qed.

Lemma fetch_content_fetched url body :
  contains (lit "arxiv.org") url = false →
  contains (lit "twitter.com") url || contains (lit "x.com") url = false →
  http_outcome requests_get url = inr body →
  fetch_content requests_get arxiv_results url =
    (inr (article_record url body), [RequestsGet url headers 10]).
Proof. intros. resolution_cases url; congruence. Qed.

Lemma fetch_content_not_fetched url e :
  contains (lit "arxiv.org") url = false →
  contains (lit "twitter.com") url || contains (lit "x.com") url = false →
  http_outcome requests_get url = inl e →
  fetch_content requests_get arxiv_results url =
    (inr (manual_record url (lit "unknown")),
     [RequestsGet url headers 10;
      Print (lit "Could not fetch URL directly: " ++ exc_str e)]).
Proof. intros. resolution_cases url; congruence. Qed.

(** ** What the returned records hold *)

Lemma manual_record_tweet url :
  category_of (manual_record url (lit "tweet")) = Some social_post ∧
  body_text (manual_record url (lit "tweet")) = None.
Proof. split; reflexivity. Qed.

Lemma manual_record_unknown url :
  category_of (manual_record url (lit "unknown")) = Some unresolved ∧
  body_text (manual_record url (lit "unknown")) = None.
Proof. split; reflexivity. Qed.

Lemma manual_record_arxiv url :
  category_of (manual_record url (lit "arxiv")) = Some academic_paper ∧
  body_text (manual_record url (lit "arxiv")) = None.
Proof. split; reflexivity. Qed.

Lemma manual_record_lookup url tag :
  manual_record url tag !! "url" = Some (VStr url) ∧
  manual_record url tag !! "type" = Some (VStr tag) ∧
  manual_record url tag !! "content" = Some VNone ∧
  manual_record url tag !! "needs_paste" = Some (VBool true) ∧
  manual_record url tag !! "abstract" = None.
Proof. repeat split; reflexivity. Qed.

Lemma article_record_body url body :
  category_of (article_record url body) = Some generic_document ∧
  body_text (article_record url body) = Some (slice_to 50000 body) ∧
  article_record url body !! "needs_paste" = Some (VBool false).
Proof. repeat split; reflexivity. Qed.

Lemma paper_record_body url paper :
  category_of (paper_record url paper) = Some academic_paper ∧
  body_text (paper_record url paper) = Some (arxiv.summary paper) ∧
  paper_record url paper !! "needs_paste" = Some (VBool false).
Proof. repeat split; reflexivity. Qed.

(** C1. Classification is first match wins on substring tests: a URL that
    contains [arxiv.org] resolves to an academic-paper record whatever else
    it contains; otherwise a URL that contains [twitter.com] or [x.com]
    resolves to a social-post record that requires manual input and has no
    body text, and nothing is asked of any collaborator. *)
Theorem classification_first_match url :
  (contains (lit "arxiv.org") url = true →
   ∃ d, result (fetch_content requests_get arxiv_results url) = inr d ∧
        category_of d = Some academic_paper) ∧
  (contains (lit "arxiv.org") url = false →
   contains (lit "twitter.com") url || contains (lit "x.com") url = true →
   ∃ d, result (fetch_content requests_get arxiv_results url) = inr d ∧
        category_of d = Some social_post ∧
        requires_manual_input d ∧
        d !! "content" = Some VNone ∧
        body_text d = None ∧
        trace (fetch_content requests_get arxiv_results url) = [] ∧
        existsb is_http_call (trace (fetch_content requests_get arxiv_results url)) = false).
Proof.
  split.
  - intros Harxiv. resolution_cases url; try congruence.
    + eexists; split; [reflexivity|]. apply paper_record_body.
    + eexists; split; [reflexivity|]. apply manual_record_arxiv.
  - intros Harxiv Hsocial. resolution_cases url; try congruence.
    eexists; split; [reflexivity|].
    repeat split; try reflexivity.
Qed.

(** C6. The record [fetch_content] returns requires manual input exactly
    when its body text (the abstract of an academic-paper record, the
    content of any other) is absent; [fetch_content] returns a record
    whatever the collaborators answer. *)
Theorem manual_input_iff_body_absent url :
  ∃ d, result (fetch_content requests_get arxiv_results url) = inr d ∧
       (requires_manual_input d ↔ body_text d = None) ∧
       (∃ b, d !! "needs_paste" = Some (VBool b)).
Proof.
  resolution_cases url; eexists; (split; [reflexivity|]).
  - destruct (paper_record_body url paper) as (_ & Hb & Hn).
    unfold requires_manual_input. rewrite Hb, Hn.
    split; [split; discriminate | by exists false].
  - destruct (manual_record_lookup url (lit "arxiv")) as (_ & _ & _ & Hn & _).
    destruct (manual_record_arxiv url) as [_ Hb].
    unfold requires_manual_input. rewrite Hb, Hn.
    split; [done | by exists true].
  - destruct (manual_record_lookup url (lit "tweet")) as (_ & _ & _ & Hn & _).
    destruct (manual_record_tweet url) as [_ Hb].
    unfold requires_manual_input. rewrite Hb, Hn.
    split; [done | by exists true].
  - destruct (article_record_body url body) as (_ & Hb & Hn).
    unfold requires_manual_input. rewrite Hb, Hn.
    split; [split; discriminate | by exists false].
  - destruct (manual_record_lookup url (lit "unknown")) as (_ & _ & _ & Hn & _).
    destruct (manual_record_unknown url) as [_ Hb].
    unfold requires_manual_input. rewrite Hb, Hn.
    split; [done | by exists true].
Qed.

(** C3, amended. [fetch_content] never raises: a failure of the paper
    lookup or of the HTTP fetch (an exception of [requests.get] or of
    [raise_for_status]) is caught where the call is made, and the record
    returned has no body text and requires manual input.  The record of a
    failed lookup stays an academic-paper record; the record of a failed
    fetch is tagged [unknown], the unresolved category, not [article].  The
    reason of the failure goes to the printed line only: the record is the
    same whatever the exception. *)
Theorem fetch_failure_falls_back url :
  (∃ d, result (fetch_content requests_get arxiv_results url) = inr d) ∧
  (∀ e,
     contains (lit "arxiv.org") url = true →
     arxiv_results [paper_id url] = inl e →
     ∃ d, fetch_content requests_get arxiv_results url =
            (inr d,
             [ArxivResults [paper_id url];
              Print (lit "Error fetching ArXiv paper: " ++ exc_str e)]) ∧
          d = manual_record url (lit "arxiv") ∧
          category_of d = Some academic_paper ∧
          body_text d = None ∧ d !! "content" = Some VNone ∧
          requires_manual_input d) ∧
  (∀ e,
     contains (lit "arxiv.org") url = false →
     contains (lit "twitter.com") url || contains (lit "x.com") url = false →
     http_outcome requests_get url = inl e →
     ∃ d, fetch_content requests_get arxiv_results url =
            (inr d,
             [RequestsGet url headers 10;
              Print (lit "Could not fetch URL directly: " ++ exc_str e)]) ∧
          d = manual_record url (lit "unknown") ∧
          category_of d = Some unresolved ∧
          body_text d = None ∧ d !! "content" = Some VNone ∧
          requires_manual_input d).
Proof.
  split; [|split].
  - resolution_cases url; eexists; reflexivity.
  - intros e Harxiv Hlookup.
    rewrite (fetch_content_paper_not_found url e Harxiv Hlookup).
    eexists; split; [reflexivity|]. repeat split; reflexivity.
  - intros e Harxiv Hsocial Hhttp.
    rewrite (fetch_content_not_fetched url e Harxiv Hsocial Hhttp).
    eexists; split; [reflexivity|]. repeat split; reflexivity.
Qed.

(** ** [create_analysis_prompt] reads the dict and nothing else *)

Lemma reads_only_ret {A} (a : A) : reads_only (mret a).
Proof. intros d. left. by exists a. Qed.

Lemma reads_only_bind {A B} (m : Obj A) (f : A → Obj B) :
  reads_only m → (∀ a, reads_only (f a)) → reads_only (m ≫= f).
Proof.
  intros Hm Hf d. unfold mbind, Obj_bind, mbind, IO_bind.
  destruct (Hm d) as [[a ->] | [e ->]]; [|right; by exists e].
  simpl. destruct (Hf a d) as [[b ->] | [e ->]].
  - left. by exists b.
  - right. by exists e.
Qed.

Lemma reads_only_getitem key : reads_only (getitem key).
Proof.
  intros d. unfold getitem. destruct (d !! key) as [v|].
  - left. by exists v.
  - right. by eexists.
Qed.

Lemma reads_only_get key dflt : reads_only (get key dflt).
Proof. intros d. left. by eexists. Qed.

Lemma reads_only_lift_exn {A} (r : exception + A) : reads_only (lift_exn r).
Proof.
  intros d. unfold lift_exn. destruct r as [e|a].
  - right. by exists e.
  - left. by exists a.
Qed.

Lemma reads_only_content_str : reads_only (content_str repr_list).
Proof.
  unfold content_str.
  repeat first
    [ apply reads_only_ret | apply reads_only_getitem | apply reads_only_get
    | apply reads_only_lift_exn
    | apply reads_only_bind; [|intros ?]
    | match goal with |- reads_only (if ?b then _ else _) => destruct b end ].
Qed.

Lemma reads_only_create_analysis_prompt :
  reads_only (create_analysis_prompt repr_list).
Proof.
  unfold create_analysis_prompt.
  apply reads_only_bind; [apply reads_only_content_str|].
  intros ?; apply reads_only_ret.
Qed.

(** C9. Formatting is a function of the dict and leaves it as it was:
    [create_analysis_prompt] either raises or returns a prompt with the
    dict unchanged and nothing done to the outside, and then a second call
    on the same dict returns the same prompt. *)
Theorem format_deterministic_and_pure (d : dict) :
  (∃ prompt,
     create_analysis_prompt repr_list d = (inr (prompt, d), []) ∧
     format_twice repr_list d = (inr ((prompt, prompt), d), [])) ∨
  (∃ e, create_analysis_prompt repr_list d = (inl e, [])).
Proof.
  destruct (reads_only_create_analysis_prompt d) as [[p Hp] | [e He]].
  - left. exists p. split; [exact Hp|].
    unfold format_twice, mbind, Obj_bind, mbind, IO_bind.
    rewrite Hp. simpl. rewrite Hp. reflexivity.
  - right. by exists e.
Qed.

(** ** The content block of each record [fetch_content] returns *)

Lemma content_str_tweet_none url :
  content_str repr_list (manual_record url (lit "tweet")) =
    (inr (lit "
TWEET/THREAD from " ++ url ++ lit ":
None
", manual_record url (lit "tweet")), []).
Proof. reflexivity. Qed.

Lemma content_str_unknown_none url :
  content_str repr_list (manual_record url (lit "unknown")) =
    (inl (TypeError "'NoneType' object is not subscriptable"), []).
Proof. reflexivity. Qed.

Lemma content_str_article url body :
  content_str repr_list (article_record url body) =
    (inr (lit "
URL: " ++ url ++ lit "
CONTENT:
" ++ slice_to 10000 (slice_to 50000 body) ++ lit "  # Limit for token management
", article_record url body), []).
Proof. reflexivity. Qed.

Lemma content_str_paper url paper :
  content_str repr_list (paper_record url paper) =
    (inr (lit "
PAPER: " ++ arxiv.title paper ++ lit "
AUTHORS: " ++ join (lit ", ") (map arxiv.name (arxiv.authors paper)) ++ lit "
URL: " ++ url ++ lit "

ABSTRACT:
" ++ arxiv.summary paper ++ lit "
", paper_record url paper), []).
Proof. reflexivity. Qed.

(** [create_analysis_prompt] puts [base_prompt] in front of the block. *)
Lemma create_analysis_prompt_block (d : dict) :
  create_analysis_prompt repr_list d =
    match content_str repr_list d with
    | (inr (block, d'), t) => (inr (base_prompt ++ block, d'), t)
    | (inl e, t) => (inl e, t)
    end.
Proof.
  unfold create_analysis_prompt, mbind, Obj_bind, mbind, IO_bind.
  destruct (content_str repr_list d) as [[e|[block d']] t]; [reflexivity|].
  simpl. by rewrite app_nil_r.
Qed.

Lemma length_slice_to {A} (n : N) (s : list A) :
  N.of_nat (length (slice_to n s)) = N.min (N.of_nat (length s)) n.
Proof. unfold slice_to. rewrite length_take. lia. Qed.

Lemma slice_to_slice_to {A} (n m : N) (s : list A) :
  slice_to n (slice_to m s) = slice_to (N.min n m) s.
Proof. unfold slice_to. by rewrite take_take, N2Nat.inj_min. Qed.

(** C5. A successful fetch of a generic document keeps the first
    min(n, 50000) characters of the n characters of the response text (so
    50000 of 60000), and the prompt made of that record embeds the first
    10000 characters of the body text at most. *)
Theorem truncation_two_stage url body :
  contains (lit "arxiv.org") url = false →
  contains (lit "twitter.com") url || contains (lit "x.com") url = false →
  http_outcome requests_get url = inr body →
  ∃ d content embedded,
    result (fetch_content requests_get arxiv_results url) = inr d ∧
    category_of d = Some generic_document ∧
    body_text d = Some content ∧
    content = slice_to 50000 body ∧
    N.of_nat (length content) = N.min (N.of_nat (length body)) 50000 ∧
    (N.of_nat (length body) = 60000 → N.of_nat (length content) = 50000) ∧
    create_analysis_prompt repr_list d =
      (inr (base_prompt ++ lit "
URL: " ++ url ++ lit "
CONTENT:
" ++ embedded ++ lit "  # Limit for token management
", d), []) ∧
    embedded = slice_to 10000 content ∧
    N.of_nat (length embedded) = N.min (N.of_nat (length content)) 10000 ∧
    (N.of_nat (length embedded) <= 10000)%N.
Proof.
  intros Harxiv Hsocial Hhttp.
  rewrite (fetch_content_fetched url body Harxiv Hsocial Hhttp).
  exists (article_record url body), (slice_to 50000 body),
    (slice_to 10000 (slice_to 50000 body)).
  split; [reflexivity|]. split; [reflexivity|]. split; [reflexivity|].
  split; [reflexivity|]. split; [apply length_slice_to|].
  split; [intros Hn; rewrite length_slice_to, Hn; reflexivity|].
  split; [rewrite create_analysis_prompt_block, content_str_article;
          reflexivity|].
  split; [reflexivity|]. split; [apply length_slice_to|].
  rewrite length_slice_to. lia.
Qed.

(** C7. The prompt is the fixed preamble followed by the content block of
    the record.  The preamble names the ten sections in order (one-liner,
    key innovation, why it matters, main insights, how it works, key
    results, limitations, connections, who should read this, TLDR) and
    then the yes/no question on reading the full version.  For the paper
    "Example Paper" by A. One and B. Two the block holds the title line,
    the authors joined by a comma, the URL and the abstract as it is. *)
Theorem prompt_is_preamble_then_block :
  section_headers base_prompt =
    [ lit "## 📝 ONE-LINER";
      lit "## 🚀 KEY INNOVATION";
      lit "## 💡 WHY IT MATTERS";
      lit "## 🔍 MAIN INSIGHTS";
      lit "## ⚙️ HOW IT WORKS";
      lit "## 📊 KEY RESULTS";
      lit "## ⚠️ LIMITATIONS";
      lit "## 🔗 CONNECTIONS";
      lit "## 🎯 WHO SHOULD READ THIS";
      lit "## 📌 TLDR";
      lit "## 🤔 SHOULD YOU READ THE FULL VERSION?" ] ∧
  (∀ d : dict,
     create_analysis_prompt repr_list d =
       match content_str repr_list d with
       | (inr (block, d'), t) => (inr (base_prompt ++ block, d'), t)
       | (inl e, t) => (inl e, t)
       end) ∧
  (∀ abstract,
     arxiv_results [lit "2301.00001"] = inr (example_paper abstract) →
     ∃ d block,
       fetch_content requests_get arxiv_results
         (lit "https://arxiv.org/abs/2301.00001") =
         (inr d, [ArxivResults [lit "2301.00001"]]) ∧
       create_analysis_prompt repr_list d = (inr (base_prompt ++ block, d), []) ∧
       block = lit "
PAPER: Example Paper
AUTHORS: A. One, B. Two
URL: https://arxiv.org/abs/2301.00001

ABSTRACT:
" ++ abstract ++ lit "
" ∧
       occurs_in (lit "PAPER: Example Paper") block ∧
       occurs_in (lit "AUTHORS: A. One, B. Two") block ∧
       occurs_in (lit "https://arxiv.org/abs/2301.00001") block ∧
       occurs_in abstract block).
Proof.
  split; [vm_compute; reflexivity|].
  split; [apply create_analysis_prompt_block|].
  intros abstract Hlookup.
  assert (paper_id (lit "https://arxiv.org/abs/2301.00001") = lit "2301.00001")
    as Hid by (vm_compute; reflexivity).
  eexists _, _. split; [|split; [|split; [reflexivity|]]].
  - rewrite <- Hid. apply fetch_content_paper_found.
    + vm_compute; reflexivity.
    + rewrite Hid. exact Hlookup.
  - rewrite create_analysis_prompt_block, content_str_paper. reflexivity.
  - split; [|split; [|split]].
    + exists [LF], (lit "
AUTHORS: A. One, B. Two
URL: https://arxiv.org/abs/2301.00001

ABSTRACT:
" ++ abstract ++ lit "
"). vm_compute; reflexivity.
    + exists (lit "
PAPER: Example Paper
"), (lit "
URL: https://arxiv.org/abs/2301.00001

ABSTRACT:
" ++ abstract ++ lit "
"). vm_compute; reflexivity.
    + exists (lit "
PAPER: Example Paper
AUTHORS: A. One, B. Two
URL: "), (lit "

ABSTRACT:
" ++ abstract ++ lit "
"). vm_compute; reflexivity.
    + exists (lit "
PAPER: Example Paper
AUTHORS: A. One, B. Two
URL: https://arxiv.org/abs/2301.00001

ABSTRACT:
"), (lit "
"). vm_compute; reflexivity.
Qed.

End Properties.


(** C8, as the code has it. A record with the key [content] missing gets
    the placeholder, but the records [fetch_content] returns without a body
    hold [None] under [content]: the social-post record is rendered with
    the text [None] and no placeholder, and formatting the record of a
    failed fetch raises TypeError. *)
Theorem placeholder_only_for_missing_key (repr_list : list str → str) :
  let tweet_url := lit "https://x.com/user/status/1" in
  let tweet := manual_record tweet_url (lit "tweet") in
  let page_url := lit "https://example.com/post" in
  let failed := manual_record page_url (lit "unknown") in
  fetch_content requests_down arxiv_down tweet_url = (inr tweet, []) ∧
  body_text tweet = None ∧
  (∃ prompt,
     create_analysis_prompt repr_list tweet = (inr (prompt, tweet), []) ∧
     prompt = base_prompt ++ lit "
TWEET/THREAD from https://x.com/user/status/1:
None
" ∧
     contains (lit "Content not provided") prompt = false) ∧
  result (fetch_content requests_down arxiv_down page_url) = inr failed ∧
  body_text failed = None ∧
  create_analysis_prompt repr_list failed =
    (inl (TypeError "'NoneType' object is not subscriptable"), []) ∧
  (∃ prompt,
     create_analysis_prompt repr_list
       (dict_of [("url", VStr tweet_url); ("type", VStr (lit "tweet"))]) =
       (inr (prompt,
             dict_of [("url", VStr tweet_url); ("type", VStr (lit "tweet"))]),
        []) ∧
     contains (lit "Content not provided") prompt = true).
Proof.
  intros tweet_url tweet page_url failed.
  split; [apply fetch_content_social; vm_compute; reflexivity|].
  split; [reflexivity|].
  split.
  { eexists. split; [|split; [reflexivity|vm_compute; reflexivity]].
    rewrite create_analysis_prompt_block.
    unfold tweet. rewrite content_str_tweet_none. reflexivity. }
  split.
  { unfold failed.
    rewrite (fetch_content_not_fetched requests_down arxiv_down _ unreachable)
      by (vm_compute; reflexivity).
    reflexivity. }
  split; [reflexivity|].
  split.
  { rewrite create_analysis_prompt_block.
    unfold failed. rewrite content_str_unknown_none. reflexivity. }
  eexists. split.
  - rewrite create_analysis_prompt_block. reflexivity.
  - vm_compute. reflexivity.
Qed.

(** ** [analyze] *)

Section Analyze.

Variable repr_list : list str → str.
Variable requests_get :
  str → list (str * str) → N → exception + requests.Response.
Variable arxiv_results : list str → exception + arxiv.Result.
Variable messages_create :
  str → N → list (str * str) → list str → exception + anthropic.Message.

(** Once the prompt is made, [complete] asks for one completion and returns
    a text, the answer or the error line; it never raises. *)
Lemma complete_asks_once (d : dict) prompt :
  create_analysis_prompt repr_list d = (inr (prompt, d), []) →
  ∃ answer,
    complete repr_list messages_create d =
      (inr (answer, d),
       [Print (lit "🤖 Analyzing with Claude...");
        MessagesCreate (lit "claude-3-5-sonnet-20241022") 2000
          [(lit "user", prompt)] [lit "prompt-caching-2024-07-31"]]).
Proof.
  intros Hprompt.
  unfold complete, mbind, Obj_bind, mbind, IO_bind. rewrite Hprompt.
  unfold lift, try_except, call, print, raise, mbind, IO_bind, mret, IO_ret.
  cbn [fst snd].
  destruct (messages_create _ _ _ _) as [e|[[|block blocks]]];
    eexists; reflexivity.
Qed.

(** The two tests of lines 182-185, by the value of [needs_paste]. *)
Lemma analyze_record_branches pasted (d : dict) b :
  d !! "needs_paste" = Some (VBool b) →
  analyze_record repr_list messages_create pasted d =
    if b && truthy_opt pasted then
      complete repr_list messages_create
        (<["content" := value_of_opt pasted]> d)
    else if b && negb (truthy_opt pasted) then (inr (paste_request, d), [])
    else complete repr_list messages_create d.
Proof.
  intros Hb.
  unfold analyze_record, mbind, Obj_bind, mbind, IO_bind, getitem, setitem,
    mret, IO_ret.
  rewrite Hb. cbn [fst snd truthy app].
  destruct (b && truthy_opt pasted) eqn:Hfirst.
  - destruct (complete _ _ _) as [[e|[answer d']] t]; reflexivity.
  - rewrite Hb. cbn [fst snd truthy app].
    destruct (b && negb (truthy_opt pasted)); [reflexivity|].
    destruct (complete _ _ _) as [[e|[answer d']] t]; reflexivity.
Qed.

Lemma formattable_paper url paper :
  formattable repr_list (paper_record url paper).
Proof.
  eexists. rewrite create_analysis_prompt_block, content_str_paper.
  reflexivity.
Qed.

Lemma formattable_article url body :
  formattable repr_list (article_record url body).
Proof.
  eexists. rewrite create_analysis_prompt_block, content_str_article.
  reflexivity.
Qed.

Lemma content_str_pasted_tweet url s :
  content_str repr_list (<["content" := VStr s]> (manual_record url (lit "tweet"))) =
    (inr (lit "
TWEET/THREAD from " ++ url ++ lit ":
" ++ s ++ lit "
", <["content" := VStr s]> (manual_record url (lit "tweet"))), []).
Proof. reflexivity. Qed.

Lemma content_str_pasted_unknown url s :
  content_str repr_list (<["content" := VStr s]> (manual_record url (lit "unknown"))) =
    (inr (lit "
URL: " ++ url ++ lit "
CONTENT:
" ++ slice_to 10000 s ++ lit "  # Limit for token management
", <["content" := VStr s]> (manual_record url (lit "unknown"))), []).
Proof. reflexivity. Qed.

(** The block of an academic-paper record whose lookup failed is made of
    the defaults; the pasted text, stored under [content], is not read. *)
Lemma content_str_pasted_arxiv url s :
  content_str repr_list (<["content" := VStr s]> (manual_record url (lit "arxiv"))) =
    (inr (lit "
PAPER: Unknown
AUTHORS: " ++ lit "
URL: " ++ url ++ lit "

ABSTRACT:
Not available
", <["content" := VStr s]> (manual_record url (lit "arxiv"))), []).
Proof. reflexivity. Qed.

Lemma formattable_pasted url tag s :
  tag = lit "arxiv" ∨ tag = lit "tweet" ∨ tag = lit "unknown" →
  formattable repr_list (<["content" := VStr s]> (manual_record url tag)).
Proof.
  intros [-> | [-> | ->]]; eexists; rewrite create_analysis_prompt_block.
  - rewrite content_str_pasted_arxiv. reflexivity.
  - rewrite content_str_pasted_tweet. reflexivity.
  - rewrite content_str_pasted_unknown. reflexivity.
Qed.

Lemma holds_text_pasted (d : dict) s : holds_text (<["content" := VStr s]> d).
Proof.
  left. unfold str_at. rewrite lookup_insert_eq. by eexists.
Qed.

(** What [analyze_record] does on a record, by [needs_paste] and the text
    supplied: it never raises, it asks for a completion only on a record
    that holds text, and it rejects a record that needs a paste when no
    text (or an empty one) is supplied. *)
Lemma analyze_record_outcome pasted (d : dict) b :
  d !! "needs_paste" = Some (VBool b) →
  (b = false → formattable repr_list d ∧ holds_text d) →
  (b = true → ∀ s, formattable repr_list (<["content" := VStr s]> d)) →
  ∃ answer d' t',
    analyze_record repr_list messages_create pasted d = (inr (answer, d'), t') ∧
    (existsb is_completion_call t' = true → holds_text d') ∧
    (b = true → truthy_opt pasted = false →
     answer = paste_request ∧ d' = d ∧ t' = []).
Proof.
  intros Hb Hplain Hpasted.
  rewrite (analyze_record_branches pasted d b Hb).
  destruct b; cbn [andb].
  - destruct pasted as [[|c s]|]; cbn [truthy_opt truthy negb value_of_opt].
    + by eexists _, _, _.
    + destruct (Hpasted eq_refl (c :: s)) as [prompt Hprompt].
      destruct (complete_asks_once _ _ Hprompt) as [answer ->].
      eexists _, _, _. split; [reflexivity|].
      split; [intros _; apply holds_text_pasted | discriminate].
    + by eexists _, _, _.
  - destruct (Hplain eq_refl) as [[prompt Hprompt] Htext].
    destruct (complete_asks_once _ _ Hprompt) as [answer ->].
    eexists _, _, _. split; [reflexivity|]. split; [done | discriminate].
Qed.

(** Every record [fetch_content] returns is fit for [analyze_record]. *)
Lemma fetch_content_outcome url :
  ∃ d t b,
    fetch_content requests_get arxiv_results url = (inr d, t) ∧
    d !! "needs_paste" = Some (VBool b) ∧
    (b = false → formattable repr_list d ∧ holds_text d) ∧
    (b = true → ∀ s, formattable repr_list (<["content" := VStr s]> d)) ∧
    existsb is_completion_call t = false.
Proof.
  destruct (fetch_content_resolution requests_get arxiv_results url).
  - exists (paper_record url paper), [ArxivResults [paper_id url]], false.
    repeat split; try done.
    + apply formattable_paper.
    + right. by eexists.
  - eexists (manual_record url (lit "arxiv")), _, true.
    repeat split; try done. intros _ s. apply formattable_pasted; auto.
  - eexists (manual_record url (lit "tweet")), _, true.
    repeat split; try done. intros _ s. apply formattable_pasted; auto.
  - exists (article_record url body), [RequestsGet url headers 10], false.
    repeat split; try done.
    + apply formattable_article.
    + left. by eexists.
  - eexists (manual_record url (lit "unknown")), _, true.
    repeat split; try done. intros _ s. apply formattable_pasted; auto.
Qed.

Lemma analyze_run_unfold url pasted d t :
  fetch_content requests_get arxiv_results url = (inr d, t) →
  analyze_run repr_list requests_get arxiv_results messages_create url pasted =
    ((analyze_record repr_list messages_create pasted d).1,
     Print (lit "📥 Fetching content from: " ++ url)
       :: t ++ (analyze_record repr_list messages_create pasted d).2).
Proof.
  intros Hfetch. unfold analyze_run, print, mbind, IO_bind. rewrite Hfetch.
  by destruct (analyze_record _ _ _ _) as [[e|[answer d']] t'].
Qed.

Lemma analyze_of_run url pasted answer d t :
  analyze_run repr_list requests_get arxiv_results messages_create url pasted =
    (inr (answer, d), t) →
  analyze repr_list requests_get arxiv_results messages_create url pasted =
    (inr answer, t).
Proof.
  intros Hrun. unfold analyze, mbind, IO_bind. rewrite Hrun.
  cbn. by rewrite app_nil_r.
Qed.

(** C4. When the record of a URL requires manual input and no text is
    supplied, [analyze] returns the request to paste the content and asks
    for no completion.  Whatever is supplied, [analyze] returns a text, and
    it asks for a completion only when the record it formats holds text. *)
Theorem analyze_rejects_without_text url :
  (∀ d t,
     fetch_content requests_get arxiv_results url = (inr d, t) →
     requires_manual_input d →
     analyze repr_list requests_get arxiv_results messages_create url None =
       (inr paste_request,
        Print (lit "📥 Fetching content from: " ++ url) :: t) ∧
     existsb is_completion_call
       (trace (analyze repr_list requests_get arxiv_results messages_create
                 url None)) = false) ∧
  (∀ pasted,
     ∃ answer d t,
       analyze_run repr_list requests_get arxiv_results messages_create
         url pasted = (inr (answer, d), t) ∧
       analyze repr_list requests_get arxiv_results messages_create
         url pasted = (inr answer, t) ∧
       (existsb is_completion_call t = true → holds_text d)).
Proof.
  destruct (fetch_content_outcome url)
    as (d & t & b & Hfetch & Hb & Hplain & Hpasted & Hquiet).
  split.
  - intros d0 t0 Hfetch0 Hmanual. rewrite Hfetch in Hfetch0.
    injection Hfetch0 as <- <-.
    unfold requires_manual_input in Hmanual. rewrite Hb in Hmanual.
    injection Hmanual as ->.
    destruct (analyze_record_outcome None d true Hb Hplain Hpasted)
      as (answer & d' & t' & Hrecord & _ & Hreject).
    destruct (Hreject eq_refl eq_refl) as (-> & -> & ->).
    pose proof (analyze_run_unfold url None d t Hfetch) as Hrun.
    rewrite Hrecord in Hrun. cbn [fst snd] in Hrun. rewrite app_nil_r in Hrun.
    rewrite (analyze_of_run _ _ _ _ _ Hrun). split; [reflexivity|].
    unfold trace. cbn [snd existsb is_completion_call orb]. exact Hquiet.
  - intros pasted.
    destruct (analyze_record_outcome pasted d b Hb Hplain Hpasted)
      as (answer & d' & t' & Hrecord & Htext & _).
    pose proof (analyze_run_unfold url pasted d t Hfetch) as Hrun.
    rewrite Hrecord in Hrun. cbn [fst snd] in Hrun.
    exists answer, d', (Print (lit "📥 Fetching content from: " ++ url) :: t ++ t').
    split; [exact Hrun|]. split; [exact (analyze_of_run _ _ _ _ _ Hrun)|].
    cbn [existsb is_completion_call orb]. rewrite existsb_app, Hquiet.
    exact Htext.
Qed.

(** C10. An empty string supplied as the text counts as no text: on a
    record that requires manual input, [analyze] returns the request to
    paste the content, as it does when nothing is supplied, stores nothing
    into the record and asks for no completion. *)
Theorem empty_text_is_no_text url d t :
  fetch_content requests_get arxiv_results url = (inr d, t) →
  requires_manual_input d →
  analyze_run repr_list requests_get arxiv_results messages_create
    url (Some []) =
    (inr (paste_request, d),
     Print (lit "📥 Fetching content from: " ++ url) :: t) ∧
  analyze repr_list requests_get arxiv_results messages_create url (Some []) =
    analyze repr_list requests_get arxiv_results messages_create url None ∧
  result (analyze repr_list requests_get arxiv_results messages_create
            url (Some [])) = inr paste_request ∧
  existsb is_completion_call
    (trace (analyze repr_list requests_get arxiv_results messages_create
              url (Some []))) = false.
Proof.
  intros Hfetch Hmanual.
  destruct (fetch_content_outcome url)
    as (d0 & t0 & b & Hfetch0 & Hb & Hplain & Hpasted & Hquiet).
  rewrite Hfetch in Hfetch0. injection Hfetch0 as <- <-.
  unfold requires_manual_input in Hmanual. rewrite Hb in Hmanual.
  injection Hmanual as ->.
  assert (∀ pasted, truthy_opt pasted = false →
    analyze_run repr_list requests_get arxiv_results messages_create
      url pasted =
      (inr (paste_request, d),
       Print (lit "📥 Fetching content from: " ++ url) :: t)) as Hrun.
  { intros pasted Hfalsy.
    destruct (analyze_record_outcome pasted d true Hb Hplain Hpasted)
      as (answer & d' & t' & Hrecord & _ & Hreject).
    destruct (Hreject eq_refl Hfalsy) as (-> & -> & ->).
    rewrite (analyze_run_unfold url pasted d t Hfetch), Hrecord.
    cbn [fst snd]. by rewrite app_nil_r. }
  pose proof (analyze_of_run _ _ _ _ _ (Hrun (Some []) eq_refl)) as Hempty.
  pose proof (analyze_of_run _ _ _ _ _ (Hrun None eq_refl)) as Hnone.
  split; [exact (Hrun (Some []) eq_refl)|].
  split; [by rewrite Hempty, Hnone|].
  rewrite Hempty. split; [reflexivity|].
  unfold trace. cbn [snd existsb is_completion_call orb]. exact Hquiet.
Qed.

End Analyze.

(** ** The paper identifier *)

Example paper_id_abs :
  paper_id (lit "https://arxiv.org/abs/1234.5678v2") = lit "1234.5678".
Proof. vm_compute. reflexivity. Qed.

Example paper_id_pdf :
  paper_id (lit "https://arxiv.org/pdf/1234.5678v1.pdf") = lit "1234.5678".
Proof. vm_compute. reflexivity. Qed.

Example paper_id_plain :
  paper_id (lit "https://arxiv.org/1234.5678") = lit "1234.5678".
Proof. vm_compute. reflexivity. Qed.

(** The substring tests are case-sensitive. *)
Example contains_case_sensitive :
  contains (lit "arxiv.org") (lit "https://ARXIV.ORG/abs/1234.5678") = false.
Proof. vm_compute. reflexivity. Qed.

(** [s.split(c)[0]] for a one-character separator is the text before the
    first [c]. *)
Lemma first_piece_split_from_char c piece s :
  first_piece (split_from [c] O piece s) = rev piece ++ text_before c s.
Proof.
  revert piece; induction s as [|a s IH]; intros piece.
  - simpl. by rewrite app_nil_r.
  - cbn [split_from startswith text_before]. rewrite andb_true_r.
    destruct (c =? a).
    + simpl. by rewrite app_nil_r.
    + rewrite IH. cbn [rev]. by rewrite <- app_assoc.
Qed.

Lemma first_piece_split_v s :
  first_piece (split (lit "v") s) = text_before 118 s.
Proof. apply (first_piece_split_from_char 118 [] s). Qed.

Lemma text_before_free c s : c ∉ text_before c s.
Proof.
  induction s as [|a s IH]; simpl.
  - apply not_elem_of_nil.
  - destruct (c =? a) eqn:Hca; [apply not_elem_of_nil|].
    apply N.eqb_neq in Hca. by apply not_elem_of_cons.
Qed.

(** C2, as the code has it. The three identifiers of the specification
    come out as [1234.5678], but the version is cut off by taking the text
    before the first [v], not by removing a trailing [v] and digits: the
    identifier of [https://arxiv.org/abs/solv-int/9901001], which has no
    version suffix, is cut to [sol], and that is what the lookup is asked
    for.  No identifier the code extracts holds the letter [v] (code point
    118). *)
Theorem paper_id_cut_at_first_v :
  paper_id (lit "https://arxiv.org/abs/1234.5678v2") = lit "1234.5678" ∧
  paper_id (lit "https://arxiv.org/pdf/1234.5678v1.pdf") = lit "1234.5678" ∧
  paper_id (lit "https://arxiv.org/1234.5678") = lit "1234.5678" ∧
  spec_paper_id (lit "https://arxiv.org/abs/1234.5678v2") = lit "1234.5678" ∧
  spec_paper_id (lit "https://arxiv.org/pdf/1234.5678v1.pdf") =
    lit "1234.5678" ∧
  spec_paper_id (lit "https://arxiv.org/1234.5678") = lit "1234.5678" ∧
  spec_paper_id (lit "https://arxiv.org/abs/solv-int/9901001") =
    lit "solv-int/9901001" ∧
  paper_id (lit "https://arxiv.org/abs/solv-int/9901001") = lit "sol" ∧
  trace (fetch_content requests_down arxiv_down
           (lit "https://arxiv.org/abs/solv-int/9901001")) =
    [ArxivResults [lit "sol"];
     Print (lit "Error fetching ArXiv paper: ")] ∧
  (∀ url, (118 : char) ∉ paper_id url).
Proof.
  repeat split; try (vm_compute; reflexivity).
  intros url. unfold paper_id.
  destruct (contains (lit "abs/") url); [|destruct (contains (lit "pdf/") url)];
    rewrite first_piece_split_v; apply text_before_free.
Qed.

(** ** Worked examples *)

(** C1 at a social URL. *)
Lemma classification_first_match_social :
  ∃ d, result (fetch_content requests_down arxiv_down
                 (lit "https://twitter.com/user/status/1")) = inr d ∧
       category_of d = Some social_post ∧
       requires_manual_input d ∧
       d !! "content" = Some VNone ∧
       body_text d = None ∧
       trace (fetch_content requests_down arxiv_down
                (lit "https://twitter.com/user/status/1")) = [] ∧
       existsb is_http_call
         (trace (fetch_content requests_down arxiv_down
                   (lit "https://twitter.com/user/status/1"))) = false.
Proof.
  apply (classification_first_match requests_down arxiv_down
           (lit "https://twitter.com/user/status/1"));
    vm_compute; reflexivity.
Defined.

(** C3 as stated fails: after a failed fetch the record is not a
    generic-document record. *)
Lemma failed_fetch_not_generic_document :
  ¬ (∀ requests_get arxiv_results url e,
       contains (lit "arxiv.org") url = false →
       contains (lit "twitter.com") url || contains (lit "x.com") url = false →
       http_outcome requests_get url = inl e →
       ∃ d, result (fetch_content requests_get arxiv_results url) = inr d ∧
            body_text d = None ∧
            requires_manual_input d ∧
            category_of d = Some generic_document).
Proof.
  intros H.
  destruct (H requests_down arxiv_down (lit "https://example.com/post")
              unreachable) as (d & Hd & _ & _ & Hc);
    [vm_compute; reflexivity ..|].
  rewrite (fetch_content_not_fetched requests_down arxiv_down _ unreachable)
    in Hd by (vm_compute; reflexivity).
  injection Hd as <-.
  rewrite (proj1 (manual_record_unknown _)) in Hc. discriminate.
Qed.

(** C3 at a document URL whose host is down. *)
Lemma fetch_failure_falls_back_example :
  ∃ d, fetch_content requests_down arxiv_down (lit "https://example.com/post") =
         (inr d,
          [RequestsGet (lit "https://example.com/post") headers 10;
           Print (lit "Could not fetch URL directly: " ++ exc_str unreachable)]) ∧
       d = manual_record (lit "https://example.com/post") (lit "unknown") ∧
       category_of d = Some unresolved ∧
       body_text d = None ∧ d !! "content" = Some VNone ∧
       requires_manual_input d.
Proof.
  apply (fetch_failure_falls_back requests_down arxiv_down
           (lit "https://example.com/post"));
    vm_compute; reflexivity.
Defined.

(** C4 at a social URL with nothing pasted. *)
Lemma analyze_rejects_without_text_social :
  analyze repr_unused requests_down arxiv_down claude_down
    (lit "https://twitter.com/user/status/1") None =
    (inr paste_request,
     [Print (lit "📥 Fetching content from: " ++
            lit "https://twitter.com/user/status/1")]) ∧
  existsb is_completion_call
    (trace (analyze repr_unused requests_down arxiv_down claude_down
              (lit "https://twitter.com/user/status/1") None)) = false.
Proof.
  apply (proj1 (analyze_rejects_without_text repr_unused requests_down
                  arxiv_down claude_down
                  (lit "https://twitter.com/user/status/1"))
           (manual_record (lit "https://twitter.com/user/status/1")
              (lit "tweet")) []).
  - vm_compute. reflexivity.
  - vm_compute. reflexivity.
Defined.

(** C10 at a social URL with the empty text pasted. *)
Lemma empty_text_is_no_text_social :
  analyze_run repr_unused requests_down arxiv_down claude_down
    (lit "https://twitter.com/user/status/1") (Some []) =
    (inr (paste_request,
          manual_record (lit "https://twitter.com/user/status/1") (lit "tweet")),
     [Print (lit "📥 Fetching content from: " ++
            lit "https://twitter.com/user/status/1")]).
Proof.
  apply (empty_text_is_no_text repr_unused requests_down arxiv_down claude_down
           (lit "https://twitter.com/user/status/1")
           (manual_record (lit "https://twitter.com/user/status/1")
              (lit "tweet")) []).
  - vm_compute. reflexivity.
  - vm_compute. reflexivity.
Defined.

(** C5 at a page of 60000 characters. *)
Lemma truncation_two_stage_long_page :
  ∃ d content,
    result (fetch_content (requests_serving long_page) arxiv_down
              (lit "https://example.com/post")) = inr d ∧
    body_text d = Some content ∧
    N.of_nat (length content) = 50000.
Proof.
  destruct (truncation_two_stage repr_unused (requests_serving long_page)
              arxiv_down (lit "https://example.com/post") long_page)
    as (d & content & embedded & Hd & _ & Hbody & _ & _ & Hlong & _).
  - vm_compute. reflexivity.
  - vm_compute. reflexivity.
  - reflexivity.
  - exists d, content. split; [exact Hd|]. split; [exact Hbody|].
    apply Hlong. vm_compute. reflexivity.
Defined.

(** C7 at the paper of the specification. *)
Lemma prompt_is_preamble_then_block_example :
  ∃ d block,
    fetch_content requests_down (arxiv_serving (example_paper (lit "This paper...")))
      (lit "https://arxiv.org/abs/2301.00001") =
      (inr d, [ArxivResults [lit "2301.00001"]]) ∧
    create_analysis_prompt repr_unused d = (inr (base_prompt ++ block, d), []) ∧
    block = lit "
PAPER: Example Paper
AUTHORS: A. One, B. Two
URL: https://arxiv.org/abs/2301.00001

ABSTRACT:
" ++ lit "This paper..." ++ lit "
" ∧
    occurs_in (lit "PAPER: Example Paper") block ∧
    occurs_in (lit "AUTHORS: A. One, B. Two") block ∧
    occurs_in (lit "https://arxiv.org/abs/2301.00001") block ∧
    occurs_in (lit "This paper...") block.
Proof.
  apply (proj2 (proj2 (prompt_is_preamble_then_block repr_unused requests_down
                         (arxiv_serving (example_paper (lit "This paper..."))))
                 )).
  reflexivity.
Defined.

(** * Further properties *)

Section FetchProperties.

Variable requests_get :
  str → list (str * str) → N → exception + requests.Response.
Variable arxiv_results : list str → exception + arxiv.Result.

(** X1. The record [fetch_content] returns keeps the URL as it was given,
    carries one of the four type tags and a boolean [needs_paste], and has
    one of two shapes: the keys url, type, content, needs_paste, with
    content [None] exactly when a paste is needed; or, for a paper that was
    found, the keys url, type, title, authors, abstract, needs_paste and no
    content key. *)
Theorem fetch_content_record_shape url :
  ∃ d t,
    fetch_content requests_get arxiv_results url = (inr d, t) ∧
    d !! "url" = Some (VStr url) ∧
    (∃ tag, d !! "type" = Some (VStr tag) ∧
            tag ∈ [lit "arxiv"; lit "tweet"; lit "article"; lit "unknown"]) ∧
    ((dom d = {["url"; "type"; "content"; "needs_paste"]} ∧
      ((d !! "needs_paste" = Some (VBool true) ∧ d !! "content" = Some VNone) ∨
       (d !! "needs_paste" = Some (VBool false) ∧
        ∃ s, d !! "content" = Some (VStr s)))) ∨
     (dom d = {["url"; "type"; "title"; "authors"; "abstract"; "needs_paste"]} ∧
      d !! "needs_paste" = Some (VBool false) ∧
      d !! "type" = Some (VStr (lit "arxiv")))).
Proof.
  assert (∀ u tag, dom (manual_record u tag) =
            ({["url"; "type"; "content"; "needs_paste"]} : gset string))
    as Hmanual.
  { intros. unfold manual_record, dict_of. cbn [foldl fst snd].
    rewrite !dom_insert_L, dom_empty_L. set_solver. }
  destruct (fetch_content_resolution requests_get arxiv_results url);
    eexists _, _; (split; [reflexivity|]); (split; [reflexivity|]).
  - split; [eexists; split; [reflexivity|set_solver]|]. right.
    split; [|split; reflexivity].
    unfold paper_record, dict_of. cbn [foldl fst snd].
    rewrite !dom_insert_L, dom_empty_L. set_solver.
  - split; [eexists; split; [reflexivity|set_solver]|]. left.
    split; [apply Hmanual|]. left. split; reflexivity.
  - split; [eexists; split; [reflexivity|set_solver]|]. left.
    split; [apply Hmanual|]. left. split; reflexivity.
  - split; [eexists; split; [reflexivity|set_solver]|]. left. split.
    + unfold article_record, dict_of. cbn [foldl fst snd].
      rewrite !dom_insert_L, dom_empty_L. set_solver.
    + right. split; [reflexivity|]. eexists. reflexivity.
  - split; [eexists; split; [reflexivity|set_solver]|]. left.
    split; [apply Hmanual|]. left. split; reflexivity.
Qed.

(** X2. [fetch_content] asks at most one collaborator, once: the paper
    lookup (with the identifier extracted, and no HTTP request) for a URL
    that contains [arxiv.org]; nothing for a social URL; otherwise one HTTP
    GET of the URL as given, with the fixed User-Agent header and a timeout
    of 10.  It never asks for a completion. *)
Theorem fetch_content_calls url :
  calls (trace (fetch_content requests_get arxiv_results url)) =
    (if contains (lit "arxiv.org") url then [ArxivResults [paper_id url]]
     else if contains (lit "twitter.com") url || contains (lit "x.com") url
          then []
          else [RequestsGet url
                  [(lit "User-Agent",
                    lit "Mozilla/5.0 (compatible; ContentAnalyzer/1.0)")] 10]) ∧
  existsb is_completion_call
    (trace (fetch_content requests_get arxiv_results url)) = false.
Proof.
  destruct (fetch_content_resolution requests_get arxiv_results url) as
    [paper Ha _ | e Ha _ | Ha Hs | body Ha Hs _ | e Ha Hs _];
    rewrite Ha, ?Hs; split; reflexivity.
Qed.

(** X3. [fetch_content] prints a line exactly when a collaborator failed,
    that is when the record needs a paste and is not a social post; the
    line is printed after the call and ends with [str(e)] of the exception
    caught; nothing else is printed. *)
Theorem fetch_content_prints_on_failure url :
  ∃ d t,
    fetch_content requests_get arxiv_results url = (inr d, t) ∧
    (printed t ≠ [] ↔
     requires_manual_input d ∧ category_of d ≠ Some social_post) ∧
    (printed t = [] ∨
     ∃ call e, is_call call = true ∧
       (arxiv_results [paper_id url] = inl e ∨
        http_outcome requests_get url = inl e) ∧
       (t = [call; Print (lit "Error fetching ArXiv paper: " ++ exc_str e)] ∨
        t = [call; Print (lit "Could not fetch URL directly: " ++ exc_str e)])).
Proof.
  destruct (fetch_content_resolution requests_get arxiv_results url) as
    [paper Ha Hl | e Ha Hl | Ha Hs | body Ha Hs Hh | e Ha Hs Hh];
    eexists _, _; (split; [reflexivity|]).
  - split; [|by left]. split; [done|]. intros [Hm _].
    unfold requires_manual_input in Hm.
    by rewrite (proj2 (proj2 (paper_record_body url paper))) in Hm.
  - split.
    + split; [|done]. intros _. split; [reflexivity|].
      by rewrite (proj1 (manual_record_arxiv url)).
    + right. exists (ArxivResults [paper_id url]), e.
      split; [reflexivity|]. split; [by left|by left].
  - split; [|by left]. split; [done|]. intros [_ Hc].
    by rewrite (proj1 (manual_record_tweet url)) in Hc.
  - split; [|by left]. split; [done|]. intros [Hm _].
    unfold requires_manual_input in Hm.
    by rewrite (proj2 (proj2 (article_record_body url body))) in Hm.
  - split.
    + split; [|done]. intros _. split; [reflexivity|].
      by rewrite (proj1 (manual_record_unknown url)).
    + right. exists (RequestsGet url headers 10), e.
      split; [reflexivity|]. split; [by right|by right].
Qed.

End FetchProperties.

(** ** Running code that reads the dict *)

Lemma run_bind {A B} (m : Obj A) (f : A → Obj B) (d : dict) a :
  m d = (inr (a, d), []) → (m ≫= f) d = f a d.
Proof.
  intros Hm. unfold mbind, Obj_bind, mbind, IO_bind. rewrite Hm.
  cbn [fst snd]. by destruct (f a d).
Qed.

Lemma run_bind_raise {A B} (m : Obj A) (f : A → Obj B) (d : dict) e :
  m d = (inl e, []) → (m ≫= f) d = (inl e, []).
Proof. intros Hm. unfold mbind, Obj_bind, mbind, IO_bind. by rewrite Hm. Qed.

Lemma run_getitem key (d : dict) :
  getitem key d =
    match d !! key with
    | Some v => (inr (v, d), [])
    | None => (inl (KeyError key), [])
    end.
Proof. unfold getitem. by destruct (d !! key). Qed.

Lemma run_get key dflt (d : dict) :
  get key dflt d = (inr (default dflt (d !! key), d), []).
Proof. reflexivity. Qed.

Lemma run_lift_exn {A} (r : exception + A) (d : dict) :
  lift_exn r d =
    match r with inl e => (inl e, []) | inr a => (inr (a, d), []) end.
Proof. by destruct r. Qed.

Section FormatProperties.

Variable repr_list : list str → str.

(** The block of a dict, by what is stored under the keys it reads. *)
Lemma content_str_lookup (d : dict) :
  content_str repr_list d =
    match d !! "type" with
    | None => (inl (KeyError "type"), [])
    | Some type =>
      if eq_str type (lit "arxiv") then
        match str_join (lit ", ") (default (VList []) (d !! "authors")) with
        | inl e => (inl e, [])
        | inr joined =>
          match d !! "url" with
          | None => (inl (KeyError "url"), [])
          | Some url =>
            (inr (lit "
PAPER: " ++ format_value repr_list (default (VStr (lit "Unknown")) (d !! "title")) ++ lit "
AUTHORS: " ++ joined ++ lit "
URL: " ++ format_value repr_list url ++ lit "

ABSTRACT:
" ++ format_value repr_list
       (default (VStr (lit "Not available")) (d !! "abstract")) ++ lit "
", d), [])
          end
        end
      else
        match d !! "url" with
        | None => (inl (KeyError "url"), [])
        | Some url =>
          if eq_str type (lit "tweet") then
            (inr (lit "
TWEET/THREAD from " ++ format_value repr_list url ++ lit ":
" ++ format_value repr_list
       (default (VStr (lit "Content not provided")) (d !! "content")) ++ lit "
", d), [])
          else
            match value_slice_to 10000
                    (default (VStr (lit "Content not provided"))
                       (d !! "content")) with
            | inl e => (inl e, [])
            | inr sliced =>
              (inr (lit "
URL: " ++ format_value repr_list url ++ lit "
CONTENT:
" ++ format_value repr_list sliced ++ lit "  # Limit for token management
", d), [])
            end
        end
    end.
Proof.
  unfold content_str.
  destruct (d !! "type") as [type|] eqn:Htype.
  2: { apply run_bind_raise. by rewrite run_getitem, Htype. }
  rewrite (run_bind _ _ d type) by (by rewrite run_getitem, Htype).
  destruct (eq_str type (lit "arxiv")).
  - rewrite (run_bind _ _ d _ (run_get _ _ d)).
    rewrite (run_bind _ _ d _ (run_get _ _ d)).
    destruct (str_join _ _) as [e|joined] eqn:Hjoin.
    { apply run_bind_raise. by rewrite run_lift_exn. }
    rewrite (run_bind _ _ d joined) by (by rewrite run_lift_exn).
    destruct (d !! "url") as [url|] eqn:Hurl.
    2: { apply run_bind_raise. by rewrite run_getitem, Hurl. }
    rewrite (run_bind _ _ d url) by (by rewrite run_getitem, Hurl).
    by rewrite (run_bind _ _ d _ (run_get _ _ d)).
  - rewrite (run_bind _ _ d type) by (by rewrite run_getitem, Htype).
    destruct (d !! "url") as [url|] eqn:Hurl.
    + destruct (eq_str type (lit "tweet")).
      * rewrite (run_bind _ _ d url) by (by rewrite run_getitem, Hurl).
        by rewrite (run_bind _ _ d _ (run_get _ _ d)).
      * rewrite (run_bind _ _ d url) by (by rewrite run_getitem, Hurl).
        rewrite (run_bind _ _ d _ (run_get _ _ d)).
        destruct (value_slice_to _ _) as [e|sliced] eqn:Hslice.
        { apply run_bind_raise. by rewrite run_lift_exn. }
        by rewrite (run_bind _ _ d sliced) by (by rewrite run_lift_exn).
    + destruct (eq_str type (lit "tweet"));
        apply run_bind_raise; by rewrite run_getitem, Hurl.
Qed.

Lemma prompt_of_block (d : dict) :
  prompt_of repr_list d =
    match content_str repr_list d with
    | (inr (block, _), _) => inr (base_prompt ++ block)
    | (inl e, _) => inl e
    end.
Proof.
  unfold prompt_of, result. rewrite create_analysis_prompt_block.
  by destruct (content_str repr_list d) as [[e|[block d']] t].
Qed.

Lemma formattable_prompt_of (d : dict) :
  formattable repr_list d ↔ ∃ prompt, prompt_of repr_list d = inr prompt.
Proof.
  unfold formattable, prompt_of, result.
  destruct (reads_only_create_analysis_prompt repr_list d)
    as [[p Hp] | [e He]].
  - rewrite Hp. split; intros _; by exists p.
  - rewrite He. split; intros [p Hp]; discriminate.
Qed.

(** X4. What [create_analysis_prompt] raises, and when it returns.  A dict
    without [type] gives KeyError on type; with a type, a dict without
    [url] gives KeyError on url; an arxiv dict whose authors are [None] or
    a bool gives TypeError (before the URL is read); a dict that is neither
    arxiv nor tweet and whose content is [None] or a bool gives TypeError.
    In every other case a prompt is returned: the keys title, authors,
    abstract and content may be missing. *)
Theorem format_error_table (d : dict) :
  (d !! "type" = None →
   prompt_of repr_list d = inl (KeyError "type")) ∧
  (∀ type,
     d !! "type" = Some type → eq_str type (lit "arxiv") = true →
     is_sequence (default (VList []) (d !! "authors")) = false →
     prompt_of repr_list d = inl (TypeError "can only join an iterable")) ∧
  (∀ type,
     d !! "type" = Some type →
     (eq_str type (lit "arxiv") = true →
      is_sequence (default (VList []) (d !! "authors")) = true) →
     d !! "url" = None →
     prompt_of repr_list d = inl (KeyError "url")) ∧
  (∀ type url,
     d !! "type" = Some type → d !! "url" = Some url →
     eq_str type (lit "arxiv") = false → eq_str type (lit "tweet") = false →
     (d !! "content" = Some VNone →
      prompt_of repr_list d =
        inl (TypeError "'NoneType' object is not subscriptable")) ∧
     (∀ b, d !! "content" = Some (VBool b) →
      prompt_of repr_list d =
        inl (TypeError "'bool' object is not subscriptable"))) ∧
  (formattable repr_list d ↔
   ∃ type url,
     d !! "type" = Some type ∧ d !! "url" = Some url ∧
     (eq_str type (lit "arxiv") = true →
      is_sequence (default (VList []) (d !! "authors")) = true) ∧
     (eq_str type (lit "arxiv") = false → eq_str type (lit "tweet") = false →
      is_sequence
        (default (VStr (lit "Content not provided")) (d !! "content")) = true)).
Proof.
  rewrite formattable_prompt_of.
  rewrite prompt_of_block, content_str_lookup.
  split; [by intros ->|].
  split.
  { intros type -> -> Hseq.
    by destruct (default (VList []) (d !! "authors")). }
  split.
  { intros type -> Hseq ->. destruct (eq_str type (lit "arxiv")); [|done].
    specialize (Hseq eq_refl).
    by destruct (default (VList []) (d !! "authors")). }
  split.
  { intros type url -> -> -> ->. split; [by intros ->|by intros b ->]. }
  split.
  - intros [prompt Hprompt].
    destruct (d !! "type") as [type|]; [|discriminate].
    destruct (eq_str type (lit "arxiv")) eqn:Harxiv.
    + destruct (default (VList []) (d !! "authors")) eqn:Hauthors;
        cbn [str_join] in Hprompt; try discriminate;
        (destruct (d !! "url") as [url|]; [|discriminate]);
        exists type, url; repeat split; try done; congruence.
    + destruct (d !! "url") as [url|]; [|discriminate].
      exists type, url. split; [done|]. split; [done|]. split; [congruence|].
      intros _ Htweet.
      rewrite Htweet in Hprompt.
      by destruct (default (VStr (lit "Content not provided")) (d !! "content")).
  - intros (type & url & -> & -> & Hauthors & Hcontent).
    destruct (eq_str type (lit "arxiv")).
    + specialize (Hauthors eq_refl).
      destruct (default (VList []) (d !! "authors")); try discriminate;
        by eexists.
    + destruct (eq_str type (lit "tweet")); [by eexists|].
      specialize (Hcontent eq_refl eq_refl).
      destruct (default (VStr (lit "Content not provided")) (d !! "content"));
        try discriminate; by eexists.
Qed.

(** X5. Formatting tells only [arxiv] and [tweet] apart: two dicts that
    differ in the type only, with neither type being [arxiv] or [tweet]
    (such as [article] and [unknown]), give the same prompt or the same
    exception. *)
Theorem format_ignores_other_types (d : dict) type1 type2 :
  eq_str type1 (lit "arxiv") = false → eq_str type1 (lit "tweet") = false →
  eq_str type2 (lit "arxiv") = false → eq_str type2 (lit "tweet") = false →
  prompt_of repr_list (<["type" := type1]> d) =
  prompt_of repr_list (<["type" := type2]> d).
Proof.
  intros Ha1 Ht1 Ha2 Ht2.
  rewrite !prompt_of_block, !content_str_lookup.
  rewrite !lookup_insert_eq, Ha1, Ht1, Ha2, Ht2.
  rewrite !(lookup_insert_ne _ "type" "url"), !(lookup_insert_ne _ "type" "content")
    by done.
  destruct (d !! "url") as [url|]; [|reflexivity].
  by destruct (value_slice_to _ _).
Qed.

(** X6. The prompt depends on the keys type, url, title, authors, abstract
    and content only: storing a value under any other key, [needs_paste]
    among them, or deleting such a key, changes neither the prompt nor the
    exception. *)
Theorem format_reads_six_keys (d : dict) key v :
  key ∉ ["type"; "url"; "title"; "authors"; "abstract"; "content"] →
  prompt_of repr_list (<[key := v]> d) = prompt_of repr_list d ∧
  prompt_of repr_list (delete key d) = prompt_of repr_list d.
Proof.
  intros Hkey.
  assert (∀ k, k ∈ ["type"; "url"; "title"; "authors"; "abstract"; "content"] →
               key ≠ k) as Hne by (intros k Hk ->; done).
  rewrite !prompt_of_block, !content_str_lookup.
  split.
  - rewrite !lookup_insert_ne by (apply Hne; set_solver).
    destruct (d !! "type") as [type|]; [|done].
    destruct (eq_str type (lit "arxiv")).
    + destruct (str_join _ _); [done|]. by destruct (d !! "url").
    + destruct (d !! "url"); [|done].
      destruct (eq_str type (lit "tweet")); [done|].
      by destruct (value_slice_to _ _).
  - rewrite !lookup_delete_ne by (apply Hne; set_solver).
    destruct (d !! "type") as [type|]; [|done].
    destruct (eq_str type (lit "arxiv")).
    + destruct (str_join _ _); [done|]. by destruct (d !! "url").
    + destruct (d !! "url"); [|done].
      destruct (eq_str type (lit "tweet")); [done|].
      by destruct (value_slice_to _ _).
Qed.

(** X7. The size of the prompt. For a dict that is neither arxiv nor
    tweet, with a [str] URL and a [str] content, the prompt has 1200
    characters besides the URL and the first 10000 characters of the
    content, so it is bounded whatever the size of the content.  For a
    tweet dict the content is embedded whole: the prompt grows with it. *)
Theorem prompt_length (d : dict) type url s :
  d !! "type" = Some type → eq_str type (lit "arxiv") = false →
  d !! "url" = Some (VStr url) → d !! "content" = Some (VStr s) →
  ∃ prompt,
    prompt_of repr_list d = inr prompt ∧
    if eq_str type (lit "tweet")
    then N.of_nat (length prompt) =
           1175 + N.of_nat (length url) + N.of_nat (length s)
    else N.of_nat (length prompt) =
           1200 + N.of_nat (length url) + N.min (N.of_nat (length s)) 10000 ∧
         N.of_nat (length prompt) <= 11200 + N.of_nat (length url).
Proof.
  intros Htype Harxiv Hurl Hcontent.
  rewrite prompt_of_block, content_str_lookup, Htype, Harxiv, Hurl, Hcontent.
  assert (length base_prompt = 1153%nat) as Hbase by (vm_compute; reflexivity).
  destruct (eq_str type (lit "tweet"));
    cbn [from_option id value_slice_to format_value];
    eexists; (split; [reflexivity|]); rewrite !length_app, Hbase.
  - replace (length (lit "
TWEET/THREAD from ")) with 19%nat by (vm_compute; reflexivity).
    replace (length (lit ":
")) with 2%nat by (vm_compute; reflexivity).
    replace (length (lit "
")) with 1%nat by (vm_compute; reflexivity).
    lia.
  - replace (length (lit "
URL: ")) with 6%nat by (vm_compute; reflexivity).
    replace (length (lit "
CONTENT:
")) with 10%nat by (vm_compute; reflexivity).
    replace (length (lit "  # Limit for token management
")) with 31%nat by (vm_compute; reflexivity).
    pose proof (length_slice_to 10000 s) as Hslice.
    lia.
Qed.

End FormatProperties.

Section AnalyzeProperties.

Variable repr_list : list str → str.
Variable requests_get :
  str → list (str * str) → N → exception + requests.Response.
Variable arxiv_results : list str → exception + arxiv.Result.
Variable messages_create :
  str → N → list (str * str) → list str → exception + anthropic.Message.

Lemma complete_run (d : dict) prompt :
  create_analysis_prompt repr_list d = (inr (prompt, d), []) →
  complete repr_list messages_create d =
    (inr (completion_text
            (messages_create (lit "claude-3-5-sonnet-20241022") 2000
               [(lit "user", prompt)] [lit "prompt-caching-2024-07-31"]), d),
     [Print (lit "🤖 Analyzing with Claude..."); completion_request prompt]).
Proof.
  intros Hprompt.
  unfold complete, mbind, Obj_bind, mbind, IO_bind. rewrite Hprompt.
  unfold lift, try_except, call, print, raise, mbind, IO_bind, mret, IO_ret.
  cbn [fst snd]. unfold completion_text, completion_request.
  destruct (messages_create _ _ _ _) as [e|[[|block blocks]]];
    cbn [app anthropic.content anthropic.text]; reflexivity.
Qed.

Lemma formattable_run (d : dict) :
  formattable repr_list d →
  ∃ prompt, prompt_of repr_list d = inr prompt ∧
            create_analysis_prompt repr_list d = (inr (prompt, d), []).
Proof.
  intros [prompt Hprompt]. exists prompt. split; [|done].
  unfold prompt_of, result. by rewrite Hprompt.
Qed.

Lemma analyze_rejects url pasted (d : dict) t :
  fetch_content requests_get arxiv_results url = (inr d, t) →
  d !! "needs_paste" = Some (VBool true) →
  truthy_opt pasted = false →
  analyze repr_list requests_get arxiv_results messages_create url pasted =
    (inr paste_request, Print (lit "📥 Fetching content from: " ++ url) :: t).
Proof.
  intros Hfetch Hb Hfalsy.
  pose proof (analyze_run_unfold repr_list requests_get arxiv_results
                messages_create url pasted d t Hfetch) as Hrun.
  rewrite (analyze_record_branches repr_list messages_create pasted d true Hb)
    in Hrun.
  rewrite Hfalsy in Hrun. cbn [andb negb fst snd] in Hrun.
  rewrite app_nil_r in Hrun.
  exact (analyze_of_run _ _ _ _ _ _ _ _ _ Hrun).
Qed.

Lemma analyze_accepts url pasted (d : dict) t b prompt :
  fetch_content requests_get arxiv_results url = (inr d, t) →
  d !! "needs_paste" = Some (VBool b) →
  (b = true → truthy_opt pasted = true) →
  create_analysis_prompt repr_list
    (if b then <["content" := value_of_opt pasted]> d else d) =
    (inr (prompt, if b then <["content" := value_of_opt pasted]> d else d),
     []) →
  analyze repr_list requests_get arxiv_results messages_create url pasted =
    (inr (completion_text
            (messages_create (lit "claude-3-5-sonnet-20241022") 2000
               [(lit "user", prompt)] [lit "prompt-caching-2024-07-31"])),
     Print (lit "📥 Fetching content from: " ++ url) :: t ++
     [Print (lit "🤖 Analyzing with Claude...");
      MessagesCreate (lit "claude-3-5-sonnet-20241022") 2000
        [(lit "user", prompt)] [lit "prompt-caching-2024-07-31"]]).
Proof.
  intros Hfetch Hb Htruthy Hprompt.
  pose proof (analyze_run_unfold repr_list requests_get arxiv_results
                messages_create url pasted d t Hfetch) as Hrun.
  rewrite (analyze_record_branches repr_list messages_create pasted d b Hb)
    in Hrun.
  destruct b.
  - rewrite (Htruthy eq_refl) in Hrun. cbn [andb] in Hrun.
    rewrite (complete_run _ _ Hprompt) in Hrun.
    unfold completion_request in Hrun. cbn [fst snd] in Hrun.
    exact (analyze_of_run _ _ _ _ _ _ _ _ _ Hrun).
  - cbn [andb] in Hrun. rewrite (complete_run _ _ Hprompt) in Hrun.
    unfold completion_request in Hrun. cbn [fst snd] in Hrun.
    exact (analyze_of_run _ _ _ _ _ _ _ _ _ Hrun).
Qed.

(** X8. What [analyze] does, in full.  It prints the fetching line and
    resolves the URL; when the record needs a paste and no text (or an
    empty one) is supplied it returns the paste request at once; otherwise
    it stores the text supplied, if a paste is needed, formats the record,
    prints the analysing line and asks for exactly one completion, last,
    with the fixed model, 2000 tokens, the prompt as the single user
    message and the one beta flag; it returns the text made of the
    answer, and never raises. *)
Theorem analyze_behaviour url pasted :
  ∃ d t b,
    fetch_content requests_get arxiv_results url = (inr d, t) ∧
    d !! "needs_paste" = Some (VBool b) ∧
    if b && negb (truthy_opt pasted) then
      analyze repr_list requests_get arxiv_results messages_create url pasted =
        (inr paste_request, Print (fetching_line url) :: t)
    else
      ∃ prompt,
        prompt_of repr_list
          (if b then <["content" := value_of_opt pasted]> d else d) =
          inr prompt ∧
        analyze repr_list requests_get arxiv_results messages_create
          url pasted =
          (inr (completion_text
                  (messages_create (lit "claude-3-5-sonnet-20241022") 2000
                     [(lit "user", prompt)]
                     [lit "prompt-caching-2024-07-31"])),
           Print (fetching_line url) :: t ++
           [Print (lit "🤖 Analyzing with Claude...");
            MessagesCreate (lit "claude-3-5-sonnet-20241022") 2000
              [(lit "user", prompt)] [lit "prompt-caching-2024-07-31"]]).
Proof.
  destruct (fetch_content_outcome repr_list requests_get arxiv_results url)
    as (d & t & b & Hfetch & Hb & Hplain & Hpasted & _).
  exists d, t, b. split; [exact Hfetch|]. split; [exact Hb|].
  unfold fetching_line.
  destruct b; cbn [andb].
  - destruct (truthy_opt pasted) eqn:Htruthy; cbn [negb].
    + destruct pasted as [s|]; [|discriminate].
      destruct (formattable_run _ (Hpasted eq_refl s)) as (prompt & Hp & Hc).
      exists prompt. split; [exact Hp|].
      by apply (analyze_accepts url (Some s) d t true prompt).
    + by apply (analyze_rejects url pasted d t).
  - destruct (formattable_run _ (proj1 (Hplain eq_refl))) as (prompt & Hp & Hc).
    exists prompt. split; [exact Hp|].
    by apply (analyze_accepts url pasted d t false prompt).
Qed.

(** X9. The answer of the completion service.  Once the prompt is made,
    one completion is asked for and a text is returned in every case: the
    text of the first block of the response; the error line with the
    message of the exception when the call raises; the error line with
    [list index out of range] when the response has no block. *)
Theorem completion_answer (d : dict) prompt :
  create_analysis_prompt repr_list d = (inr (prompt, d), []) →
  ∃ text,
    complete repr_list messages_create d =
      (inr (text, d),
       [Print (lit "🤖 Analyzing with Claude...");
        MessagesCreate (lit "claude-3-5-sonnet-20241022") 2000
          [(lit "user", prompt)] [lit "prompt-caching-2024-07-31"]]) ∧
    match messages_create (lit "claude-3-5-sonnet-20241022") 2000
            [(lit "user", prompt)] [lit "prompt-caching-2024-07-31"] with
    | inl e => text = lit "❌ Error calling Claude API: " ++ exc_str e
    | inr response =>
      match anthropic.content response with
      | [] => text = lit "❌ Error calling Claude API: " ++
                     lit "list index out of range"
      | block :: _ => text = anthropic.text block
      end
    end.
Proof.
  intros Hprompt. eexists. split; [exact (complete_run d prompt Hprompt)|].
  unfold completion_text.
  by destruct (messages_create _ _ _ _) as [e|[[|block blocks]]].
Qed.

(** X10. A text supplied for a URL whose record needs no paste (a paper
    that was found, a document that was fetched) is ignored: [analyze]
    does the same as with no text. *)
Theorem supplied_text_ignored url pasted (d : dict) t :
  fetch_content requests_get arxiv_results url = (inr d, t) →
  d !! "needs_paste" = Some (VBool false) →
  analyze repr_list requests_get arxiv_results messages_create url pasted =
  analyze repr_list requests_get arxiv_results messages_create url None.
Proof.
  intros Hfetch Hb.
  destruct (fetch_content_outcome repr_list requests_get arxiv_results url)
    as (d0 & t0 & b & Hfetch0 & Hb0 & Hplain & _).
  rewrite Hfetch in Hfetch0. injection Hfetch0 as <- <-.
  rewrite Hb in Hb0. injection Hb0 as <-.
  destruct (formattable_run _ (proj1 (Hplain eq_refl))) as (prompt & _ & Hc).
  rewrite (analyze_accepts url pasted d t false prompt Hfetch Hb) by done.
  by rewrite (analyze_accepts url None d t false prompt Hfetch Hb).
Qed.

(** X11. A text pasted reaches the prompt.  For a social URL the prompt is
    the preamble, the URL and the whole text, and the completion request
    is the only call made.  For a document whose fetch failed the prompt
    holds the first 10000 characters of the text. *)
Theorem pasted_text_in_prompt url s :
  s ≠ [] →
  contains (lit "arxiv.org") url = false →
  (contains (lit "twitter.com") url || contains (lit "x.com") url = true →
   ∃ prompt,
     prompt = base_prompt ++ lit "
TWEET/THREAD from " ++ url ++ lit ":
" ++ s ++ lit "
" ∧
     analyze repr_list requests_get arxiv_results messages_create
       url (Some s) =
       (inr (completion_text
               (messages_create (lit "claude-3-5-sonnet-20241022") 2000
                  [(lit "user", prompt)] [lit "prompt-caching-2024-07-31"])),
        [Print (lit "📥 Fetching content from: " ++ url);
         Print (lit "🤖 Analyzing with Claude...");
         MessagesCreate (lit "claude-3-5-sonnet-20241022") 2000
           [(lit "user", prompt)] [lit "prompt-caching-2024-07-31"]])) ∧
  (∀ e,
     contains (lit "twitter.com") url || contains (lit "x.com") url = false →
     http_outcome requests_get url = inl e →
     ∃ prompt,
       prompt = base_prompt ++ lit "
URL: " ++ url ++ lit "
CONTENT:
" ++ slice_to 10000 s ++ lit "  # Limit for token management
" ∧
       result (analyze repr_list requests_get arxiv_results messages_create
                 url (Some s)) =
         inr (completion_text
                (messages_create (lit "claude-3-5-sonnet-20241022") 2000
                   [(lit "user", prompt)] [lit "prompt-caching-2024-07-31"]))).
Proof.
  intros Hs Harxiv.
  assert (truthy_opt (Some s) = true) as Htruthy by (by destruct s).
  split.
  - intros Hsocial. eexists. split; [reflexivity|].
    pose proof (fetch_content_social requests_get arxiv_results url
                  Harxiv Hsocial) as Hfetch.
    apply (analyze_accepts url (Some s) _ [] true _ Hfetch); [done | done |].
    cbn [value_of_opt].
    by rewrite create_analysis_prompt_block, content_str_pasted_tweet.
  - intros e Hsocial Hhttp. eexists. split; [reflexivity|].
    pose proof (fetch_content_not_fetched requests_get arxiv_results url e
                  Harxiv Hsocial Hhttp) as Hfetch.
    erewrite (analyze_accepts url (Some s) _ _ true _ Hfetch);
      [reflexivity | done | done |].
    cbn [value_of_opt].
    by rewrite create_analysis_prompt_block, content_str_pasted_unknown.
Qed.

(** X12. A text pasted for a paper whose lookup failed never reaches the
    prompt: the record is formatted as a paper, from the title, authors
    and abstract it does not have, so the completion is asked about a
    paper [Unknown] with abstract [Not available], whatever the text. *)
Theorem pasted_text_dropped_for_paper url s e :
  s ≠ [] →
  contains (lit "arxiv.org") url = true →
  arxiv_results [paper_id url] = inl e →
  ∃ prompt,
    prompt = base_prompt ++ lit "
PAPER: Unknown
AUTHORS: " ++ lit "
URL: " ++ url ++ lit "

ABSTRACT:
Not available
" ∧
    analyze repr_list requests_get arxiv_results messages_create
      url (Some s) =
      (inr (completion_text
              (messages_create (lit "claude-3-5-sonnet-20241022") 2000
                 [(lit "user", prompt)] [lit "prompt-caching-2024-07-31"])),
       [Print (lit "📥 Fetching content from: " ++ url);
        ArxivResults [paper_id url];
        Print (lit "Error fetching ArXiv paper: " ++ exc_str e);
        Print (lit "🤖 Analyzing with Claude...");
        MessagesCreate (lit "claude-3-5-sonnet-20241022") 2000
          [(lit "user", prompt)] [lit "prompt-caching-2024-07-31"]]).
Proof.
  intros Hs Harxiv Hlookup.
  assert (truthy_opt (Some s) = true) as Htruthy by (by destruct s).
  eexists. split; [reflexivity|].
  pose proof (fetch_content_paper_not_found requests_get arxiv_results url e
                Harxiv Hlookup) as Hfetch.
  apply (analyze_accepts url (Some s) _ _ true _ Hfetch); [done | done |].
  cbn [value_of_opt].
  by rewrite create_analysis_prompt_block, content_str_pasted_arxiv.
Qed.

End AnalyzeProperties.

(** ** [main]: reading the text to paste *)

Lemma read_lines_acc stdin acc :
  match read_lines stdin acc with
  | inr (lines, rest) =>
    ∃ new, lines = acc ++ new ∧ stdin = new ++ [] :: rest ∧
           Forall (λ line, line ≠ []) new
  | inl e => e = EOFError ∧ Forall (λ line, line ≠ []) stdin
  end.
Proof.
  revert acc; induction stdin as [|line stdin IH]; intros acc.
  - by split.
  - cbn [read_lines truthy]. destruct line as [|c line].
    + exists []. by rewrite app_nil_r.
    + specialize (IH (acc ++ [c :: line])).
      destruct (read_lines stdin (acc ++ [c :: line])) as [e|[lines rest]].
      * destruct IH as [-> IH]. split; [done|]. by constructor.
      * destruct IH as (new & -> & -> & IH). exists ((c :: line) :: new).
        split; [by rewrite <- app_assoc|]. split; [done|]. by constructor.
Qed.

(** X13. The loop that reads the text to paste stops at the first empty
    line: it returns the lines before it, none of them empty, and leaves
    the input after it; when the input has no empty line it raises
    EOFError. *)
Theorem read_lines_until_empty stdin :
  match read_lines stdin [] with
  | inr (lines, rest) =>
    stdin = lines ++ [] :: rest ∧ Forall (λ line, line ≠ []) lines
  | inl e => e = EOFError ∧ Forall (λ line, line ≠ []) stdin
  end.
Proof.
  pose proof (read_lines_acc stdin []) as H.
  destruct (read_lines stdin []) as [e|[lines rest]]; [done|].
  by destruct H as (new & -> & -> & H).
Qed.

Lemma read_lines_app lines rest :
  Forall (λ line, line ≠ []) lines →
  read_lines (lines ++ [] :: rest) [] = inr (lines, rest).
Proof.
  intros Hlines.
  enough (∀ acc, read_lines (lines ++ [] :: rest) acc = inr (acc ++ lines, rest))
    as H by apply (H []).
  induction Hlines as [|line lines Hline _ IH]; intros acc.
  - cbn. by rewrite app_nil_r.
  - cbn [app read_lines truthy]. destruct line as [|c line]; [done|].
    rewrite IH. by rewrite <- app_assoc.
Qed.

Lemma join_lines_truthy lines :
  lines ≠ [] → Forall (λ line, line ≠ []) lines →
  truthy_opt (Some (join [LF] lines)) = true.
Proof.
  intros Hne Hlines. destruct Hlines as [|line lines Hline _]; [done|].
  destruct line as [|c line]; [done|]. by destruct lines.
Qed.

Section MainProperties.

Variable repr_list : list str → str.
Variable requests_get :
  str → list (str * str) → N → exception + requests.Response.
Variable arxiv_results : list str → exception + arxiv.Result.
Variable messages_create :
  str → N → list (str * str) → list str → exception + anthropic.Message.

(** X14. The interactive loop asks for a text only for a social URL.  For
    any other URL whose record needs a paste (a paper whose lookup failed,
    a document whose fetch failed) it reads nothing, and the result is the
    paste request: no completion is asked for. *)
Theorem main_offers_no_paste url stdin (d : dict) t :
  contains (lit "twitter.com") url || contains (lit "x.com") url = false →
  fetch_content requests_get arxiv_results url = (inr d, t) →
  d !! "needs_paste" = Some (VBool true) →
  main_analyze repr_list requests_get arxiv_results messages_create url stdin =
    (inr (paste_request, stdin),
     Print (lit "📥 Fetching content from: " ++ url) :: t) ∧
  existsb is_completion_call
    (trace (main_analyze repr_list requests_get arxiv_results messages_create
              url stdin)) = false.
Proof.
  intros Hsocial Hfetch Hb.
  assert (main_analyze repr_list requests_get arxiv_results messages_create
            url stdin =
          (inr (paste_request, stdin),
           Print (lit "📥 Fetching content from: " ++ url) :: t)) as Hmain.
  { unfold main_analyze. rewrite Hsocial. unfold mbind, IO_bind.
    rewrite (analyze_rejects repr_list requests_get arxiv_results
               messages_create url None d t Hfetch Hb eq_refl).
    cbn. by rewrite app_nil_r. }
  split; [exact Hmain|]. rewrite Hmain. unfold trace.
  cbn [snd existsb is_completion_call orb].
  destruct (fetch_content_outcome repr_list requests_get arxiv_results url)
    as (d0 & t0 & b & Hfetch0 & _ & _ & _ & Hquiet).
  rewrite Hfetch in Hfetch0. by injection Hfetch0 as <- <-.
Qed.

(** X15. For a social URL the interactive loop prints the request to paste
    and reads lines up to the first empty one.  With an empty first line
    the result is the paste request and no completion is asked for; with
    some lines the text supplied to [analyze] is the lines joined by line
    feeds, and the prompt holds it whole; with no empty line in the input
    EOFError is raised before anything is fetched. *)
Theorem main_reads_paste url :
  contains (lit "arxiv.org") url = false →
  contains (lit "twitter.com") url || contains (lit "x.com") url = true →
  (∀ rest,
     main_analyze repr_list requests_get arxiv_results messages_create
       url ([] :: rest) =
       (inr (paste_request, rest),
        [Print (lit "
📋 Please paste the tweet content (press Enter twice when done):");
         Print (lit "📥 Fetching content from: " ++ url)])) ∧
  (∀ lines rest,
     lines ≠ [] → Forall (λ line, line ≠ []) lines →
     ∃ prompt,
       prompt = base_prompt ++ lit "
TWEET/THREAD from " ++ url ++ lit ":
" ++ join [LF] lines ++ lit "
" ∧
       main_analyze repr_list requests_get arxiv_results messages_create
         url (lines ++ [] :: rest) =
         (inr (completion_text
                 (messages_create (lit "claude-3-5-sonnet-20241022") 2000
                    [(lit "user", prompt)] [lit "prompt-caching-2024-07-31"]),
               rest),
          [Print (lit "
📋 Please paste the tweet content (press Enter twice when done):");
           Print (lit "📥 Fetching content from: " ++ url);
           Print (lit "🤖 Analyzing with Claude...");
           MessagesCreate (lit "claude-3-5-sonnet-20241022") 2000
             [(lit "user", prompt)] [lit "prompt-caching-2024-07-31"]])) ∧
  (∀ stdin,
     Forall (λ line, line ≠ []) stdin →
     main_analyze repr_list requests_get arxiv_results messages_create
       url stdin =
       (inl EOFError,
        [Print (lit "
📋 Please paste the tweet content (press Enter twice when done):")])).
Proof.
  intros Harxiv Hsocial.
  pose proof (fetch_content_social requests_get arxiv_results url
                Harxiv Hsocial) as Hfetch.
  split; [|split].
  - intros rest. unfold main_analyze. rewrite Hsocial.
    unfold print, outcome, mbind, IO_bind. cbn [read_lines truthy fst snd join].
    rewrite (analyze_rejects repr_list requests_get arxiv_results
               messages_create url (Some []) _ [] Hfetch) by done.
    reflexivity.
  - intros lines rest Hne Hlines. eexists. split; [reflexivity|].
    unfold main_analyze. rewrite Hsocial.
    unfold print, outcome, mbind, IO_bind.
    rewrite (read_lines_app lines rest Hlines). cbn [fst snd].
    erewrite (analyze_accepts repr_list requests_get arxiv_results
                messages_create url (Some (join [LF] lines)) _ [] true _ Hfetch);
      [reflexivity | done | intros _; by apply join_lines_truthy |].
    cbn [value_of_opt].
    by rewrite create_analysis_prompt_block, content_str_pasted_tweet.
  - intros stdin Hstdin. unfold main_analyze. rewrite Hsocial.
    unfold print, outcome, mbind, IO_bind.
    pose proof (read_lines_acc stdin []) as Hread.
    destruct (read_lines stdin []) as [e|[lines rest]].
    + by destruct Hread as [-> _].
    + destruct Hread as (new & _ & -> & _).
      apply Forall_app in Hstdin as [_ Hstdin]. by inversion Hstdin.
Qed.

End MainProperties.

(** ** [split], [replace] and the identifier of well-formed URLs *)

Lemma split_from_skip sep (x rest piece : str) :
  split_from sep (length x) piece (x ++ rest) = split_from sep O piece rest.
Proof.
  induction x as [|c x IH]; [reflexivity|]. cbn [length app split_from].
  exact IH.
Qed.

Lemma split_from_no_match sep (piece rest : str) :
  contains sep rest = false →
  split_from sep O piece rest = [rev piece ++ rest].
Proof.
  revert piece; induction rest as [|c rest IH]; intros piece Hno.
  - cbn. by rewrite app_nil_r.
  - cbn [contains] in Hno. apply orb_false_iff in Hno as [Hhere Hlater].
    cbn [split_from]. rewrite Hhere, (IH _ Hlater). cbn [rev].
    by rewrite <- app_assoc.
Qed.

Lemma last_piece_cons (x : str) (l : list str) :
  l ≠ [] → last_piece (x :: l) = last_piece l.
Proof. by destruct l. Qed.

Lemma startswith_self_app (p rest : str) : startswith p (p ++ rest) = true.
Proof. apply startswith_app. by exists rest. Qed.

(** The text after the last separator: when the first character of the
    separator does not come back in it, the last piece of [split] on a text
    that ends with the separator and [rest] is [rest], provided [rest] has
    no separator in it. *)
Lemma last_piece_split_from a sep' (pre rest : str) skip piece :
  a ∉ sep' → contains (a :: sep') rest = false →
  Forall (λ c, c ≠ a) (take skip (pre ++ (a :: sep') ++ rest)) →
  last_piece (split_from (a :: sep') skip piece (pre ++ (a :: sep') ++ rest))
    = rest.
Proof.
  intros Hfree Hrest. remember ((a :: sep') ++ rest) as tail eqn:Htail.
  revert skip piece.
  induction pre as [|c pre IH]; intros skip piece Hskip.
  - subst tail. destruct skip as [|k]; [|by inversion Hskip].
    pose proof (startswith_self_app (a :: sep') rest) as Hself.
    cbn [app] in Hself. cbn [app split_from]. rewrite Hself.
    cbn [length Nat.pred].
    rewrite split_from_skip, (split_from_no_match _ [] rest Hrest).
    reflexivity.
  - cbn [app split_from]. destruct skip as [|k].
    + destruct (startswith (a :: sep') (c :: pre ++ tail)) eqn:Hmatch.
      * rewrite last_piece_cons by apply split_from_nonempty.
        apply IH. apply startswith_app in Hmatch as [r Hr].
        cbn [app] in Hr. injection Hr as -> Hr.
        cbn [length Nat.pred]. rewrite Hr, take_app_length.
        apply Forall_forall. intros x Hx ->. done.
      * apply IH. constructor.
    + apply IH. cbn [app take] in Hskip. by inversion Hskip.
Qed.

Lemma last_piece_split a sep' (pre rest : str) :
  a ∉ sep' → contains (a :: sep') rest = false →
  last_piece (split (a :: sep') (pre ++ (a :: sep') ++ rest)) = rest.
Proof.
  intros Hfree Hrest. apply last_piece_split_from; [done | done | constructor].
Qed.

(** No match of the separator starts in a text without one and runs into
    the separator that follows it. *)
Lemma startswith_straddle a sep' (y rest : str) :
  a ∉ sep' → y ≠ [] → contains (a :: sep') y = false →
  startswith (a :: sep') (y ++ (a :: sep') ++ rest) = false.
Proof.
  intros Hfree Hy Hno.
  destruct (startswith (a :: sep') (y ++ (a :: sep') ++ rest)) eqn:Hmatch;
    [|reflexivity].
  exfalso. apply startswith_app in Hmatch as [r Hr].
  apply app_eq_app in Hr as [l [[Hl _] | [Hl Hr]]].
  - assert (contains (a :: sep') y = true) as Hyes; [|congruence].
    apply contains_occurs. exists [], l. by rewrite Hl.
  - destruct l as [|b l].
    + rewrite app_nil_r in Hl.
      assert (contains (a :: sep') y = true) as Hyes; [|congruence].
      apply contains_occurs. exists [], []. by rewrite app_nil_r, Hl.
    + cbn [app] in Hr. injection Hr as <- _.
      destruct y as [|c y]; [done|]. cbn [app] in Hl. injection Hl as _ Hl.
      apply Hfree. rewrite Hl. set_solver.
Qed.

Lemma split_from_app_sep a sep' (x rest piece : str) :
  a ∉ sep' → contains (a :: sep') x = false →
  split_from (a :: sep') O piece (x ++ (a :: sep') ++ rest) =
    (rev piece ++ x) :: split_from (a :: sep') O [] rest.
Proof.
  intros Hfree. revert piece; induction x as [|c x IH]; intros piece Hno.
  - pose proof (startswith_self_app (a :: sep') rest) as Hself.
    cbn [app] in Hself. cbn [app split_from]. rewrite Hself.
    cbn [length Nat.pred]. by rewrite split_from_skip, app_nil_r.
  - pose proof (startswith_straddle a sep' (c :: x) rest Hfree
                  ltac:(done) Hno) as Hhere.
    remember ((a :: sep') ++ rest) as tail eqn:Htail.
    cbn [app] in Hhere. cbn [app split_from]. rewrite Hhere.
    cbn [contains] in Hno. apply orb_false_iff in Hno as [_ Hno].
    rewrite (IH _ Hno). cbn [rev]. by rewrite <- app_assoc.
Qed.

(** [(x + old).replace(old, '')] is [x] when [x] has no [old] in it. *)
Lemma replace_suffix a sep' (x : str) :
  a ∉ sep' → contains (a :: sep') x = false →
  replace (a :: sep') [] (x ++ (a :: sep')) = x.
Proof.
  intros Hfree Hno. unfold replace, split.
  pose proof (split_from_app_sep a sep' x [] [] Hfree Hno) as Hsplit.
  rewrite app_nil_r in Hsplit. rewrite Hsplit. cbn. by rewrite !app_nil_r.
Qed.

Lemma no_char_no_occurrence c (sep s : str) :
  c ∈ sep → c ∉ s → contains sep s = false.
Proof.
  intros Hsep Hs. destruct (contains sep s) eqn:Hyes; [|reflexivity].
  exfalso. apply contains_occurs in Hyes as (before & after & ->).
  apply Hs. set_solver.
Qed.

Lemma text_before_app c (x y : str) :
  c ∉ x → text_before c (x ++ c :: y) = x.
Proof.
  induction x as [|a x IH]; intros Hx; cbn [app text_before].
  - by rewrite N.eqb_refl.
  - apply not_elem_of_cons in Hx as [Hca Hx].
    apply N.eqb_neq in Hca. by rewrite Hca, IH.
Qed.

Lemma text_before_absent c (x : str) : c ∉ x → text_before c x = x.
Proof.
  induction x as [|a x IH]; intros Hx; cbn [text_before]; [done|].
  apply not_elem_of_cons in Hx as [Hca Hx].
  apply N.eqb_neq in Hca. by rewrite Hca, IH.
Qed.

Lemma not_in_class (P : char → bool) c (s : str) :
  forallb P s = true → P c = false → c ∉ s.
Proof.
  intros Hall Hc Hin. apply list_elem_of_In in Hin.
  rewrite forallb_forall in Hall. specialize (Hall c Hin). congruence.
Qed.

Lemma take_digits_all (digits rest : str) c :
  forallb is_digit digits = true → is_digit c = false →
  take_digits (digits ++ c :: rest) = digits.
Proof.
  induction digits as [|d digits IH]; intros Hall Hc; cbn [app take_digits].
  - by rewrite Hc.
  - cbn [forallb] in Hall. apply andb_true_iff in Hall as [-> Hall].
    by rewrite IH.
Qed.

(** A version suffix is removed by [strip_version]. *)
Lemma strip_version_versioned (ident version : str) :
  forallb is_digit version = true → version ≠ [] →
  strip_version (ident ++ 118 :: version) = ident.
Proof.
  intros Hdigits Hne. unfold strip_version. cbv zeta.
  rewrite rev_app_distr. cbn [rev]. rewrite <- app_assoc. cbn [app].
  assert (forallb is_digit (rev version) = true) as Hrev.
  { rewrite forallb_forall in *. intros x Hx. apply Hdigits.
    by apply in_rev. }
  rewrite (take_digits_all (rev version) (rev ident) 118 Hrev eq_refl).
  destruct (length (rev version)) eqn:Hlen.
  - apply length_zero_iff_nil in Hlen.
    destruct version; [done|]. cbn [rev] in Hlen. by destruct (rev version).
  - rewrite <- Hlen, drop_app_length. rewrite N.eqb_refl.
    apply rev_involutive.
Qed.

(** A text without [v] has no version suffix. *)
Lemma strip_version_plain (ident : str) :
  118 ∉ ident → strip_version ident = ident.
Proof.
  intros Hv. unfold strip_version. cbv zeta.
  destruct (length (take_digits (rev ident))) as [|k]; [reflexivity|].
  destruct (drop (S k) (rev ident)) as [|c rest] eqn:Hdrop; [reflexivity|].
  destruct (c =? 118) eqn:Hc; [|reflexivity].
  exfalso. apply Hv. apply N.eqb_eq in Hc. subst c.
  assert (118 ∈ drop (S k) (rev ident)) as Hin by (rewrite Hdrop; set_solver).
  apply list_elem_of_In, in_rev, list_elem_of_In.
  exact (subseteq_drop _ _ _ Hin).
Qed.

Lemma strip_suffix_app (suffix x : str) :
  strip_suffix suffix (x ++ suffix) = x.
Proof.
  unfold strip_suffix. rewrite rev_app_distr, startswith_self_app.
  rewrite <- (length_rev suffix) at 1. rewrite drop_app_length.
  apply rev_involutive.
Qed.

Lemma strip_suffix_absent c (suffix x : str) :
  c ∉ x → strip_suffix (suffix ++ [c]) x = x.
Proof.
  intros Hc. unfold strip_suffix. rewrite rev_app_distr. cbn [rev app].
  destruct (rev x) as [|b r] eqn:Hrev; [reflexivity|]. cbn [startswith].
  destruct (c =? b) eqn:Hcb; [|reflexivity].
  exfalso. apply Hc. apply N.eqb_eq in Hcb. subst b.
  apply list_elem_of_In, in_rev, list_elem_of_In. rewrite Hrev. set_solver.
Qed.

Lemma replace_absent (old x : str) :
  contains old x = false → replace old [] x = x.
Proof.
  intros Hno. unfold replace, split.
  by rewrite (split_from_no_match old [] x Hno).
Qed.

(** Membership of a character in a list that is written out. *)
Ltac char_in :=
  repeat first [apply list_elem_of_here | apply list_elem_of_further].

Ltac char_not_in :=
  repeat (apply not_elem_of_cons; split; [done|]); apply not_elem_of_nil.

Lemma lit_abs : lit "abs/" = [97; 98; 115; 47].
Proof. reflexivity. Qed.

Lemma lit_pdf : lit "pdf/" = [112; 100; 102; 47].
Proof. reflexivity. Qed.

Lemma lit_dot_pdf : lit ".pdf" = [46; 112; 100; 102].
Proof. reflexivity. Qed.

Lemma lit_slash : lit "/" = [47].
Proof. reflexivity. Qed.

Lemma lit_v : lit "v" = [118].
Proof. reflexivity. Qed.

Lemma lit_empty : lit "" = [].
Proof. reflexivity. Qed.

(** What the text after the path prefix is made of, for a new-style
    identifier with or without a version: no [/], [a] or [p], and [v]
    only in front of the version. *)
Lemma new_style_chars (ident version rest : str) c :
  forallb is_id_char ident = true → forallb is_digit version = true →
  rest = ident ∨ rest = ident ++ 118 :: version →
  is_id_char c = false → c ≠ 118 → c ∉ rest.
Proof.
  intros Hident Hversion Hrest Hc Hv.
  pose proof (not_in_class is_id_char c ident Hident Hc) as Hi.
  destruct Hrest as [-> | ->]; [done|].
  apply not_elem_of_app. split; [done|].
  apply not_elem_of_cons. split; [done|].
  apply (not_in_class is_digit c version Hversion).
  unfold is_id_char in Hc. by apply orb_false_iff in Hc as [-> _].
Qed.

Lemma new_style_text_before (ident version rest : str) :
  forallb is_id_char ident = true →
  rest = ident ∨ rest = ident ++ 118 :: version →
  text_before 118 rest = ident.
Proof.
  intros Hident Hrest.
  pose proof (not_in_class is_id_char 118 ident Hident eq_refl) as Hv.
  destruct Hrest as [-> | ->].
  - by apply text_before_absent.
  - by apply text_before_app.
Qed.

Lemma new_style_strip_version (ident version rest : str) :
  forallb is_id_char ident = true → forallb is_digit version = true →
  version ≠ [] →
  rest = ident ∨ rest = ident ++ 118 :: version →
  strip_version rest = ident.
Proof.
  intros Hident Hversion Hne Hrest.
  pose proof (not_in_class is_id_char 118 ident Hident eq_refl) as Hv.
  destruct Hrest as [-> | ->].
  - by apply strip_version_plain.
  - by apply strip_version_versioned.
Qed.

(** X16. On the URLs of new-style papers the identifier is right.  Let the
    identifier be made of digits and dots, and be followed or not by [v]
    and a version number.  Then [paper_id] returns the identifier for
    [.../abs/<id>], for [.../pdf/<id>] with or without [.pdf] when the URL
    has no [abs/], and for [.../<id>] when the URL has neither [abs/] nor
    [pdf/]; and this is the identifier that the wording of the
    specification gives. *)
Theorem paper_id_new_style (pre ident version rest ext : str) :
  forallb is_id_char ident = true →
  forallb is_digit version = true → version ≠ [] →
  rest = ident ∨ rest = ident ++ lit "v" ++ version →
  ext = [] ∨ ext = lit ".pdf" →
  (paper_id (pre ++ lit "abs/" ++ rest) = ident ∧
   spec_paper_id (pre ++ lit "abs/" ++ rest) = ident) ∧
  (contains (lit "abs/") (pre ++ lit "pdf/" ++ rest ++ ext) = false →
   paper_id (pre ++ lit "pdf/" ++ rest ++ ext) = ident ∧
   spec_paper_id (pre ++ lit "pdf/" ++ rest ++ ext) = ident) ∧
  (contains (lit "abs/") (pre ++ lit "/" ++ rest) = false →
   contains (lit "pdf/") (pre ++ lit "/" ++ rest) = false →
   paper_id (pre ++ lit "/" ++ rest) = ident ∧
   spec_paper_id (pre ++ lit "/" ++ rest) = ident).
Proof.
  intros Hident Hversion Hne Hrest Hext.
  rewrite lit_v in Hrest. cbn [app] in Hrest.
  pose proof (new_style_chars ident version rest 47 Hident Hversion Hrest
                eq_refl ltac:(done)) as Hslash.
  pose proof (new_style_chars ident version rest 112 Hident Hversion Hrest
                eq_refl ltac:(done)) as Hp.
  pose proof (new_style_text_before ident version rest Hident Hrest) as Hcut.
  pose proof (new_style_strip_version ident version rest Hident Hversion
                Hne Hrest) as Hstrip.
  split; [|split].
  - assert (contains (lit "abs/") (pre ++ lit "abs/" ++ rest) = true) as Habs.
    { apply contains_occurs. by exists pre, rest. }
    assert (last_piece (split (lit "abs/") (pre ++ lit "abs/" ++ rest)) = rest)
      as Hlast.
    { rewrite lit_abs. apply last_piece_split; [char_not_in|].
      apply (no_char_no_occurrence 47); [char_in | done]. }
    unfold paper_id, spec_paper_id. rewrite Habs, Hlast.
    by rewrite first_piece_split_v.
  - intros Habs.
    assert (contains (lit "pdf/") (pre ++ lit "pdf/" ++ rest ++ ext) = true)
      as Hpdf.
    { apply contains_occurs. by exists pre, (rest ++ ext). }
    assert (47 ∉ rest ++ ext) as Hslash'.
    { apply not_elem_of_app. split; [done|].
      destruct Hext as [-> | ->]; [apply not_elem_of_nil|].
      rewrite lit_dot_pdf. char_not_in. }
    assert (last_piece (split (lit "pdf/") (pre ++ lit "pdf/" ++ rest ++ ext))
            = rest ++ ext) as Hlast.
    { rewrite lit_pdf. apply last_piece_split; [char_not_in|].
      apply (no_char_no_occurrence 47); [char_in | done]. }
    assert (contains (lit ".pdf") rest = false) as Hnone.
    { rewrite lit_dot_pdf. apply (no_char_no_occurrence 112);
        [char_in | done]. }
    unfold paper_id, spec_paper_id. rewrite Habs, Hpdf, Hlast.
    rewrite first_piece_split_v, lit_empty.
    destruct Hext as [-> | ->].
    + rewrite app_nil_r, (replace_absent _ _ Hnone).
      replace (strip_suffix (lit ".pdf") rest) with rest; [done|].
      symmetry. apply (strip_suffix_absent 102 [46; 112; 100] rest).
      apply (new_style_chars ident version rest 102 Hident Hversion Hrest);
        done.
    + rewrite strip_suffix_app.
      replace (replace (lit ".pdf") [] (rest ++ lit ".pdf")) with rest;
        [done|].
      symmetry. apply (replace_suffix 46 [112; 100; 102] rest);
        [char_not_in | exact Hnone].
  - intros Habs Hpdf.
    assert (last_piece (split (lit "/") (pre ++ lit "/" ++ rest)) = rest)
      as Hlast.
    { rewrite lit_slash. apply last_piece_split; [char_not_in|].
      apply (no_char_no_occurrence 47); [char_in | done]. }
    unfold paper_id, spec_paper_id. rewrite Habs, Hpdf, Hlast.
    by rewrite first_piece_split_v.
Qed.

(** X16 at a versioned identifier under [pdf/]. *)
Lemma paper_id_new_style_example :
  paper_id (lit "https://arxiv.org/" ++ lit "pdf/" ++
            (lit "2301.00001" ++ lit "v" ++ lit "12") ++ lit ".pdf") =
    lit "2301.00001" ∧
  spec_paper_id (lit "https://arxiv.org/" ++ lit "pdf/" ++
                 (lit "2301.00001" ++ lit "v" ++ lit "12") ++ lit ".pdf") =
    lit "2301.00001".
Proof.
  refine (proj1 (proj2 (paper_id_new_style (lit "https://arxiv.org/")
            (lit "2301.00001") (lit "12")
            (lit "2301.00001" ++ lit "v" ++ lit "12") (lit ".pdf")
            _ _ _ _ _)) _).
  - vm_compute. reflexivity.
  - vm_compute. reflexivity.
  - vm_compute. discriminate.
  - right. reflexivity.
  - right. reflexivity.
  - vm_compute. reflexivity.
Defined.

(** ** Worked examples of the further properties *)

(** X4 at the empty dict. *)
Lemma format_error_table_empty :
  prompt_of repr_unused ∅ = inl (KeyError "type").
Proof.
  apply (proj1 (format_error_table repr_unused ∅)). reflexivity.
Defined.

(** X5 at the tags of a fetched and of an unfetched document. *)
Lemma format_ignores_other_types_example :
  prompt_of repr_unused (<["type" := VStr (lit "article")]> example_document) =
  prompt_of repr_unused (<["type" := VStr (lit "unknown")]> example_document).
Proof.
  apply (format_ignores_other_types repr_unused example_document
           (VStr (lit "article")) (VStr (lit "unknown")));
    vm_compute; reflexivity.
Defined.

(** X6 at the key [needs_paste]. *)
Lemma format_reads_six_keys_example :
  prompt_of repr_unused (<["needs_paste" := VBool true]> example_document) =
    prompt_of repr_unused example_document ∧
  prompt_of repr_unused (delete "needs_paste" example_document) =
    prompt_of repr_unused example_document.
Proof.
  apply (format_reads_six_keys repr_unused example_document
           "needs_paste" (VBool true)).
  refine (bool_decide_unpack _ _). vm_compute. exact I.
Defined.

(** X7 at a document of ten characters. *)
Lemma prompt_length_example :
  ∃ prompt,
    prompt_of repr_unused example_document = inr prompt ∧
    N.of_nat (length prompt) = 1234.
Proof.
  destruct (prompt_length repr_unused example_document (VStr (lit "article"))
              (lit "https://example.com/post") (lit "Some text."))
    as (prompt & Hprompt & Hlength).
  - vm_compute. reflexivity.
  - vm_compute. reflexivity.
  - vm_compute. reflexivity.
  - vm_compute. reflexivity.
  - exists prompt. split; [exact Hprompt|].
    destruct Hlength as [Hlength _]. rewrite Hlength.
    vm_compute. reflexivity.
Defined.

(** X9 at a service that answers. *)
Lemma completion_answer_example :
  ∃ text,
    complete repr_unused (claude_says (lit "A summary.")) example_document =
      (inr (text, example_document),
       [Print (lit "🤖 Analyzing with Claude...");
        MessagesCreate (lit "claude-3-5-sonnet-20241022") 2000
          [(lit "user", base_prompt ++ lit "
URL: https://example.com/post
CONTENT:
Some text.  # Limit for token management
")] [lit "prompt-caching-2024-07-31"]]) ∧
    text = lit "A summary.".
Proof.
  apply (completion_answer repr_unused (claude_says (lit "A summary."))
           example_document).
  vm_compute. reflexivity.
Defined.

(** X10 at a document that was fetched. *)
Lemma supplied_text_ignored_example :
  analyze repr_unused (requests_serving (lit "Some text.")) arxiv_down
    claude_down (lit "https://example.com/post") (Some (lit "Other text.")) =
  analyze repr_unused (requests_serving (lit "Some text.")) arxiv_down
    claude_down (lit "https://example.com/post") None.
Proof.
  apply (supplied_text_ignored repr_unused (requests_serving (lit "Some text."))
           arxiv_down claude_down (lit "https://example.com/post")
           (Some (lit "Other text."))
           (article_record (lit "https://example.com/post") (lit "Some text."))
           [RequestsGet (lit "https://example.com/post") headers 10]).
  - apply fetch_content_fetched; vm_compute; reflexivity.
  - reflexivity.
Defined.

(** X11 at a social URL. *)
Lemma pasted_text_in_prompt_example :
  ∃ prompt,
    prompt = base_prompt ++ lit "
TWEET/THREAD from " ++ lit "https://x.com/user/status/1" ++ lit ":
" ++ lit "Hello." ++ lit "
" ∧
    analyze repr_unused requests_down arxiv_down (claude_says (lit "A summary."))
      (lit "https://x.com/user/status/1") (Some (lit "Hello.")) =
      (inr (completion_text
              (claude_says (lit "A summary.")
                 (lit "claude-3-5-sonnet-20241022") 2000
                 [(lit "user", prompt)] [lit "prompt-caching-2024-07-31"])),
       [Print (lit "📥 Fetching content from: " ++
               lit "https://x.com/user/status/1");
        Print (lit "🤖 Analyzing with Claude...");
        MessagesCreate (lit "claude-3-5-sonnet-20241022") 2000
          [(lit "user", prompt)] [lit "prompt-caching-2024-07-31"]]).
Proof.
  apply (proj1 (pasted_text_in_prompt repr_unused requests_down arxiv_down
                  (claude_says (lit "A summary."))
                  (lit "https://x.com/user/status/1") (lit "Hello.")
                  ltac:(vm_compute; discriminate)
                  ltac:(vm_compute; reflexivity))).
  vm_compute. reflexivity.
Defined.

(** X12 at a paper whose lookup fails. *)
Lemma pasted_text_dropped_for_paper_example :
  ∃ prompt,
    prompt = base_prompt ++ lit "
PAPER: Unknown
AUTHORS: " ++ lit "
URL: " ++ lit "https://arxiv.org/abs/2301.00001" ++ lit "

ABSTRACT:
Not available
" ∧
    analyze repr_unused requests_down arxiv_down (claude_says (lit "A summary."))
      (lit "https://arxiv.org/abs/2301.00001") (Some (lit "The abstract.")) =
      (inr (completion_text
              (claude_says (lit "A summary.")
                 (lit "claude-3-5-sonnet-20241022") 2000
                 [(lit "user", prompt)] [lit "prompt-caching-2024-07-31"])),
       [Print (lit "📥 Fetching content from: " ++
               lit "https://arxiv.org/abs/2301.00001");
        ArxivResults [paper_id (lit "https://arxiv.org/abs/2301.00001")];
        Print (lit "Error fetching ArXiv paper: " ++
               exc_str (Exception "StopIteration" (lit "")));
        Print (lit "🤖 Analyzing with Claude...");
        MessagesCreate (lit "claude-3-5-sonnet-20241022") 2000
          [(lit "user", prompt)] [lit "prompt-caching-2024-07-31"]]).
Proof.
  apply (pasted_text_dropped_for_paper repr_unused requests_down arxiv_down
           (claude_says (lit "A summary."))
           (lit "https://arxiv.org/abs/2301.00001") (lit "The abstract.")
           (Exception "StopIteration" (lit ""))).
  - vm_compute. discriminate.
  - vm_compute. reflexivity.
  - reflexivity.
Defined.

(** X14 at a document whose host is down. *)
Lemma main_offers_no_paste_example :
  main_analyze repr_unused requests_down arxiv_down claude_down
    (lit "https://example.com/post") [lit "Some text."; []] =
    (inr (paste_request, [lit "Some text."; []]),
     Print (lit "📥 Fetching content from: " ++ lit "https://example.com/post")
     :: [RequestsGet (lit "https://example.com/post") headers 10;
         Print (lit "Could not fetch URL directly: " ++ exc_str unreachable)]) ∧
  existsb is_completion_call
    (trace (main_analyze repr_unused requests_down arxiv_down claude_down
              (lit "https://example.com/post") [lit "Some text."; []])) = false.
Proof.
  apply (main_offers_no_paste repr_unused requests_down arxiv_down claude_down
           (lit "https://example.com/post") [lit "Some text."; []]
           (manual_record (lit "https://example.com/post") (lit "unknown"))).
  - vm_compute. reflexivity.
  - apply (fetch_content_not_fetched requests_down arxiv_down _ unreachable);
      vm_compute; reflexivity.
  - reflexivity.
Defined.

(** X15 at a social URL, with the Enter key pressed at once. *)
Lemma main_reads_paste_example :
  main_analyze repr_unused requests_down arxiv_down claude_down
    (lit "https://x.com/user/status/1") [[]; lit "y"] =
    (inr (paste_request, [lit "y"]),
     [Print (lit "
📋 Please paste the tweet content (press Enter twice when done):");
      Print (lit "📥 Fetching content from: " ++
             lit "https://x.com/user/status/1")]).
Proof.
  apply (proj1 (main_reads_paste repr_unused requests_down arxiv_down
                  claude_down (lit "https://x.com/user/status/1")
                  ltac:(vm_compute; reflexivity)
                  ltac:(vm_compute; reflexivity))).
Defined.
